(** * The MIDI decoder of [midi.h]

    A shallow embedding of [Midi::decode], [Midi::dispatchCommand] and
    [Midi::dispatch], and the properties of the decoder that follow from
    them.

    Integers are [Z]; the wrap-around of [uint8_t] and [int16_t] is written
    out.  The six external handlers ([noteOn], [noteOff], ...) are not part
    of the decoder: a call to one of them is recorded, with its arguments,
    in the list of calls a step returns.  An access outside a static array
    is undefined in the source; here it ends the run in a [Fault]. *)

From Stdlib Require Import ZArith Lia.
From stdpp Require Import base option list list_numbers.

Local Open Scope Z_scope.

(** ** Machine integers *)

(** Conversion to [uint8_t]. *)
Definition to_uint8 (z : Z) : Z := z mod 256.

(** Conversion to [int16_t] (two's complement); [int] has 16 bits on the
    AVR as well, so the promoted arithmetic wraps at the same width. *)
Definition to_int16 (z : Z) : Z := (z + 32768) mod 65536 - 32768.

(** The values of a [uint8_t]. *)
Definition uint8 (z : Z) : Prop := 0 <= z < 256.

(** A wire byte with its most significant bit set, as [decode] tests it:
    [byte & 0x80]. *)
Definition high_bit (byte : Z) : bool := negb (Z.land byte 0x80 =? 0).

(** ** Arrays indexed by a machine integer *)

(** [a[i]] for reading, [None] outside the array. *)
Definition at_index {A} (a : list A) (i : Z) : option A :=
  if i <? 0 then None else a !! Z.to_nat i.

(** [a[i] = v], [None] outside the array. *)
Definition store_at {A} (a : list A) (i : Z) (v : A) : option (list A) :=
  if (0 <=? i) && (i <? Z.of_nat (length a))
  then Some (<[Z.to_nat i := v]> a) else None.

(** ** The handlers and the message kinds *)

(** [enum MidiStatus : uint8_t]. *)
Inductive MidiStatus : Set :=
| MidiStatus_NoteOff
| MidiStatus_NoteOn
| MidiStatus_PolyKeyPressure
| MidiStatus_ControlChange
| MidiStatus_ProgramChange
| MidiStatus_ChannelPressure
| MidiStatus_PitchBend
| MidiStatus_Extended
| MidiStatus_Unknown.

#[global] Instance MidiStatus_eq_dec : EqDecision MidiStatus.
Proof. solve_decision. Defined.

(** The value of an enumerator. *)
Definition MidiStatus_to_Z (st : MidiStatus) : Z :=
  match st with
  | MidiStatus_NoteOff => 0
  | MidiStatus_NoteOn => 1
  | MidiStatus_PolyKeyPressure => 2
  | MidiStatus_ControlChange => 3
  | MidiStatus_ProgramChange => 4
  | MidiStatus_ChannelPressure => 5
  | MidiStatus_PitchBend => 6
  | MidiStatus_Extended => 7
  | MidiStatus_Unknown => 8
  end.

(** [static_cast<MidiStatus>(z)]; [None] when [z] names no enumerator. *)
Definition MidiStatus_of_Z (z : Z) : option MidiStatus :=
  match z with
  | 0 => Some MidiStatus_NoteOff
  | 1 => Some MidiStatus_NoteOn
  | 2 => Some MidiStatus_PolyKeyPressure
  | 3 => Some MidiStatus_ControlChange
  | 4 => Some MidiStatus_ProgramChange
  | 5 => Some MidiStatus_ChannelPressure
  | 6 => Some MidiStatus_PitchBend
  | 7 => Some MidiStatus_Extended
  | 8 => Some MidiStatus_Unknown
  | _ => None
  end.

(** A call of one of the six [extern] handlers, with its arguments.
    [sysex] receives the length and the array [midiData] itself. *)
Inductive call : Type :=
| noteOn (channel note velocity : Z)
| noteOff (channel note : Z)
| controlChange (channel data1 data2 : Z)
| pitchBend (channel value : Z)
| programChange (channel program : Z)
| sysex (cbData : Z) (bytes : list Z).

(** ** [class Midi] *)

Module Midi.

Definition maxMidiData : Z := 32.

Definition midiStatusToDataLength : list Z :=
  [ (* 0x8n: NoteOff         *) 2;
    (* 0x9n: NoteOn          *) 2;
    (* 0xAn: PolyKeyPressure *) 2;
    (* 0xBn: ControlChange   *) 2;
    (* 0xCn: ProgramChange   *) 1;
    (* 0xDn: ChannelPressure *) 1;
    (* 0xEn: PitchBend       *) 2;
    (* 0xFn: Extended        *) maxMidiData ].

(** The static members of the class. *)
Record state : Type := {
  midiStatus : MidiStatus;      (* status of the incoming message *)
  midiChannel : Z;              (* channel of the incoming message *)
  midiDataRemaining : Z;        (* expected number of data bytes remaining *)
  midiDataIndex : Z;            (* where the next data byte is written *)
  midiData : list Z             (* the incoming data bytes *)
}.

(** The initial values of the static members. *)
Definition init : state :=
  {| midiStatus := MidiStatus_Unknown;
     midiChannel := 0xFF;
     midiDataRemaining := 0;
     midiDataIndex := 0;
     midiData := replicate (Z.to_nat maxMidiData) 0 |}.

(** An access outside [midiStatusToDataLength] or outside [midiData]. *)
Inductive fault : Set :=
| TableIndexOutOfRange
| DataIndexOutOfRange.

(** What a step leaves: the new state and the handlers called, in order,
    or a fault. *)
Inductive outcome : Type :=
| Ok (s : state) (calls : list call)
| Fault (f : fault).

(** Sequencing: the calls of both parts, in order; a fault ends the run. *)
Definition and_then (o : outcome) (k : state -> outcome) : outcome :=
  match o with
  | Fault f => Fault f
  | Ok s calls =>
      match k s with
      | Fault f => Fault f
      | Ok s' calls' => Ok s' (calls ++ calls')
      end
  end.

(** [midiData[i]] for the constant indices 0 and 1 of [dispatchCommand],
    which lie inside the array of [maxMidiData] bytes. *)
Definition data_at (s : state) (i : nat) : Z := default 0 (midiData s !! i).

(** [dispatchCommand()]: the handler calls it makes; it changes no member. *)
Definition dispatchCommand (s : state) : list call :=
  let midiData0 := data_at s 0 in
  match midiStatus s with
  | MidiStatus_NoteOff => [noteOff (midiChannel s) midiData0]
  | MidiStatus_NoteOn =>
      if data_at s 1 =? 0
      then [noteOff (midiChannel s) midiData0]
      else [noteOn (midiChannel s) midiData0 (data_at s 1)]
  | MidiStatus_PitchBend =>
      let value := to_int16 (data_at s 1) in
      let value := to_int16 (Z.shiftl value 7) in
      let value := to_int16 (Z.lor value midiData0) in
      let value := to_int16 (value - 0x2000) in
      [pitchBend (midiChannel s) value]
  | MidiStatus_ControlChange =>
      [controlChange (midiChannel s) midiData0 (data_at s 1)]
  | MidiStatus_ProgramChange => [programChange (midiChannel s) midiData0]
  | _ => []
  end.

(** [decode(byte)], over a table of data lengths [table]. *)
Definition decode_with (table : list Z) (s : state) (byte : Z) : outcome :=
  if high_bit byte then
    match midiStatus s with
    | MidiStatus_Extended =>
        Ok {| midiStatus := MidiStatus_Unknown;
              midiChannel := midiChannel s;
              midiDataRemaining := midiDataRemaining s;
              midiDataIndex := midiDataIndex s;
              midiData := midiData s |}
           [sysex (midiDataIndex s) (midiData s)]
    | _ =>
        let k := Z.shiftr byte 4 - 8 in
        match MidiStatus_of_Z k, at_index table k with
        | Some st, Some len =>
            Ok {| midiStatus := st;
                  midiChannel := Z.land byte 0x0F;
                  midiDataRemaining := to_uint8 len;
                  midiDataIndex := 0;
                  midiData := midiData s |}
               []
        | _, _ => Fault TableIndexOutOfRange
        end
    end
  else if 0 <? midiDataRemaining s then
    match store_at (midiData s) (midiDataIndex s) byte with
    | None => Fault DataIndexOutOfRange
    | Some data =>
        let s' := {| midiStatus := midiStatus s;
                     midiChannel := midiChannel s;
                     midiDataRemaining := to_uint8 (midiDataRemaining s - 1);
                     midiDataIndex := to_uint8 (midiDataIndex s + 1);
                     midiData := data |} in
        Ok s' (if midiDataRemaining s' =? 0 then dispatchCommand s' else [])
    end
  else Ok s [].

(** [decode(byte)] of the class, with its own table. *)
Definition decode : state -> Z -> outcome :=
  decode_with midiStatusToDataLength.

(** [dispatch()]: [decode] on each byte the queue hands over, oldest
    first; [received] is the content of the queue. *)
Fixpoint dispatch (s : state) (received : list Z) : outcome :=
  match received with
  | [] => Ok s []
  | byte :: rest => and_then (decode s byte) (fun s' => dispatch s' rest)
  end.

End Midi.

Import Midi.

(** ** The invariant of the decoder *)

(** The buffer has its [maxMidiData] bytes, and the bytes written plus the
    bytes still expected fit in it. *)
Record inv (s : state) : Prop := {
  inv_length : length (midiData s) = Z.to_nat maxMidiData;
  inv_index : 0 <= midiDataIndex s;
  inv_remaining : 0 <= midiDataRemaining s;
  inv_fits : midiDataIndex s + midiDataRemaining s <= maxMidiData
}.

(** Data bytes: the most significant bit is clear. *)
Definition data_byte (b : Z) : Prop := 0 <= b < 128.

(** The table of the specification: the data bytes each kind expects. *)
Definition spec_expected_remaining (kind : MidiStatus) : option Z :=
  match kind with
  | MidiStatus_NoteOff => Some 2
  | MidiStatus_NoteOn => Some 2
  | MidiStatus_PolyKeyPressure => Some 2
  | MidiStatus_ControlChange => Some 2
  | MidiStatus_ProgramChange => Some 1
  | MidiStatus_ChannelPressure => Some 1
  | MidiStatus_PitchBend => Some 2
  | MidiStatus_Extended => Some 32
  | MidiStatus_Unknown => None
  end.

(** The dispatch table of the specification: the handler call a complete
    message of each kind makes, from the channel and the two data bytes.
    The two pressure kinds have no handler; an Extended message is not
    dispatched on completion, and Unknown is no message. *)
Definition spec_dispatch (kind : MidiStatus) (channel d0 d1 : Z) : list call :=
  match kind with
  | MidiStatus_NoteOff => [noteOff channel d0]
  | MidiStatus_NoteOn =>
      if d1 =? 0 then [noteOff channel d0] else [noteOn channel d0 d1]
  | MidiStatus_ControlChange => [controlChange channel d0 d1]
  | MidiStatus_ProgramChange => [programChange channel d0]
  | MidiStatus_PitchBend =>
      [pitchBend channel (Z.lor (Z.shiftl d1 7) d0 - 0x2000)]
  | MidiStatus_PolyKeyPressure | MidiStatus_ChannelPressure => []
  | MidiStatus_Extended | MidiStatus_Unknown => []
  end.

(** ** States used as examples *)

(** The state after [0xF0 0x01 0x02]: a sysex with two bytes stored. *)
Definition sysex_in_progress : state :=
  {| midiStatus := MidiStatus_Extended;
     midiChannel := 0;
     midiDataRemaining := 30;
     midiDataIndex := 2;
     midiData := [0x01; 0x02] ++ replicate 30 0 |}.

(** The state after [0xF0 0x01 0xF7]: a sysex of one byte, terminated. *)
Definition after_sysex : state :=
  {| midiStatus := MidiStatus_Unknown;
     midiChannel := 0;
     midiDataRemaining := 31;
     midiDataIndex := 1;
     midiData := [0x01] ++ replicate 31 0 |}.

(** The state after [0x90 0x3C]: a Note-On that lacks its velocity. *)
Definition note_on_pending : state :=
  {| midiStatus := MidiStatus_NoteOn;
     midiChannel := 0;
     midiDataRemaining := 1;
     midiDataIndex := 1;
     midiData := [0x3C] ++ replicate 31 0 |}.

(** ** What the handlers can rely on *)

(** The arguments of a handler call are in the ranges of the protocol:
    channels 0..15, data bytes 0..127, a velocity of [noteOn] that is not
    0, a pitch bend in -8192..8191, and for [sysex] a length within the
    buffer of [maxMidiData] data bytes. *)
Definition call_in_range (c : call) : Prop :=
  match c with
  | noteOn channel note velocity =>
      0 <= channel < 16 /\ data_byte note /\ 1 <= velocity < 128
  | noteOff channel note => 0 <= channel < 16 /\ data_byte note
  | controlChange channel data1 data2 =>
      0 <= channel < 16 /\ data_byte data1 /\ data_byte data2
  | pitchBend channel value => 0 <= channel < 16 /\ -8192 <= value <= 8191
  | programChange channel program => 0 <= channel < 16 /\ data_byte program
  | sysex cbData bytes =>
      0 <= cbData <= maxMidiData
      /\ length bytes = Z.to_nat maxMidiData
      /\ Forall data_byte bytes
  end.

(** The invariant, with the content of the members: the buffer holds data
    bytes only, and the channel is one of the 16 once a status byte has
    been decoded. *)
Record inv_data (s : state) : Prop := {
  inv_data_inv : inv s;
  inv_data_bytes : Forall data_byte (midiData s);
  inv_data_channel :
    midiStatus s <> MidiStatus_Unknown -> 0 <= midiChannel s < 16
}.

(** 1 while a status byte has been decoded whose message can still lead
    to a handler call, 0 otherwise. *)
Definition armed (s : state) : Z :=
  match midiStatus s with
  | MidiStatus_Unknown => 0
  | MidiStatus_Extended => 1
  | _ => if 0 <? midiDataRemaining s then 1 else 0
  end.

(** ** [Midi::begin] *)

(** Conversions to [uint16_t] and to [uint32_t]. *)
Definition to_uint16 (z : Z) : Z := z mod 65536.
Definition to_uint32 (z : Z) : Z := z mod 4294967296.

(** The registers of the USART that [begin] writes, of 8 bits each. *)
Record usart : Type := {
  UBRR0H : Z;
  UBRR0L : Z;
  UCSR0C : Z;
  UCSR0B : Z
}.

(** The values of [_BV(UCSZ01)], [_BV(UCSZ00)], [_BV(RXEN0)] and
    [_BV(RXCIE0)]: the header that defines them, [avr/io.h], belongs to
    the toolchain, so they are parameters here. *)
Record usart_masks : Type := {
  BV_UCSZ01 : Z;
  BV_UCSZ00 : Z;
  BV_RXEN0 : Z;
  BV_RXCIE0 : Z
}.

(** [begin(baud)] on the registers [r], for a clock [F_CPU] (a macro of
    the build, a [long] constant).  The quotient is computed in
    [unsigned long]; a [baud] of 0 divides by zero, which is undefined:
    [None]. *)
Definition begin (F_CPU : Z) (masks : usart_masks) (baud : Z) (r : usart)
  : option usart :=
  if baud =? 0 then None
  else
    let ubrr := to_uint16 (to_uint32 (to_uint32 (F_CPU / 16) / baud - 1)) in
    Some {| UBRR0H := to_uint8 (Z.shiftr ubrr 8);
            UBRR0L := to_uint8 (Z.land ubrr 0xFF);
            UCSR0C := to_uint8 (Z.lor (BV_UCSZ01 masks) (BV_UCSZ00 masks));
            UCSR0B := to_uint8 (Z.lor (UCSR0B r)
                                  (Z.lor (BV_RXEN0 masks) (BV_RXCIE0 masks))) |}.

(** The masks of the ATmega328P, the registers after a reset, and the
    clock of the Arduino Uno, for the examples. *)
Definition atmega328p_masks : usart_masks :=
  {| BV_UCSZ01 := 4; BV_UCSZ00 := 2; BV_RXEN0 := 16; BV_RXCIE0 := 128 |}.

Definition usart_reset : usart :=
  {| UBRR0H := 0; UBRR0L := 0; UCSR0C := 6; UCSR0B := 0 |}.

Definition uno_clock : Z := 16000000.

(** ** Examples from the specification, run on the model *)

Example noteOn_example :
  exists s, dispatch init [0x90; 0x3C; 0x40] = Ok s [noteOn 0 60 64].
Proof. eexists. reflexivity. Qed.

Example noteOff_example :
  exists s, dispatch init [0x90; 0x3C; 0x00] = Ok s [noteOff 0 60].
Proof. eexists. reflexivity. Qed.

Example controlChange_example :
  exists s, dispatch init [0xB0; 0x07; 0x7F] = Ok s [controlChange 0 7 127].
Proof. eexists. reflexivity. Qed.

Example sysex_example :
  exists s buf, dispatch init [0xF0; 0x01; 0x02; 0xF7] = Ok s [sysex 2 buf]
    /\ take 2 buf = [0x01; 0x02] /\ midiStatus s = MidiStatus_Unknown.
Proof. do 2 eexists. split; [reflexivity | split; reflexivity]. Qed.

(** ** Facts about bytes *)

Section Bytes.

(** A decidable property of bytes is settled by trying the 256 of them. *)
Lemma all_bytes (P : Z -> bool) :
  forallb P (seqZ 0 256) = true -> forall b, uint8 b -> P b = true.
Proof.
  intros Hall b Hb.
  rewrite forallb_forall in Hall. apply Hall.
  apply list_elem_of_In, elem_of_seqZ. unfold uint8 in Hb. lia.
Qed.

Lemma high_bit_uint8 b : uint8 b -> high_bit b = (128 <=? b).
Proof.
  intros Hb.
  apply Bool.eqb_prop.
  apply (all_bytes (fun b => Bool.eqb (high_bit b) (128 <=? b)));
    [vm_compute; reflexivity | exact Hb].
Qed.

Lemma high_bit_data b : data_byte b -> high_bit b = false.
Proof.
  intros Hb. rewrite high_bit_uint8 by (unfold data_byte, uint8 in *; lia).
  unfold data_byte in Hb. lia.
Qed.

Lemma high_bit_status b : uint8 b -> high_bit b = true -> 128 <= b < 256.
Proof.
  intros Hb H. rewrite high_bit_uint8 in H by exact Hb.
  unfold uint8 in Hb. lia.
Qed.

(** [byte >> 4] and [byte & 0x0F] are the two nibbles. *)
Lemma nibbles b : 0 <= b -> Z.shiftr b 4 = b / 16 /\ Z.land b 0x0F = b mod 16.
Proof.
  intros Hb. split.
  - rewrite Z.shiftr_div_pow2 by lia. reflexivity.
  - change 0x0F with (Z.ones 4). rewrite Z.land_ones by lia. reflexivity.
Qed.

(** The status byte [0x80 + 16 k + n] of kind [k] on channel [n]. *)
Lemma status_byte_fields k n :
  0 <= k <= 7 -> 0 <= n < 16 ->
  let b := 0x80 + 16 * k + n in
  high_bit b = true /\ Z.shiftr b 4 - 8 = k /\ Z.land b 0x0F = n.
Proof.
  intros Hk Hn b.
  assert (Hb : uint8 b) by (unfold uint8, b; lia).
  destruct (nibbles b) as [Hs Hl]; [unfold b; lia |].
  split; [| split].
  - rewrite high_bit_uint8 by exact Hb. unfold b. lia.
  - rewrite Hs. unfold b.
    replace (128 + 16 * k + n) with ((8 + k) * 16 + n) by lia.
    rewrite Z.div_add_l by lia. rewrite Z.div_small by lia. lia.
  - rewrite Hl. unfold b.
    replace (128 + 16 * k + n) with (n + (8 + k) * 16) by lia.
    rewrite Z.mod_add by lia. apply Z.mod_small. lia.
Qed.

(** Two 7-bit halves joined by [(msb << 7) | lsb]. *)
Lemma lor_shiftl_7 msb lsb :
  0 <= lsb < 128 -> Z.lor (Z.shiftl msb 7) lsb = 128 * msb + lsb.
Proof.
  intros Hl.
  assert (Hdisj : Z.land (Z.shiftl msb 7) lsb = 0).
  { apply Z.bits_inj'. intros i Hi.
    rewrite Z.land_spec, Z.bits_0.
    destruct (Z.lt_ge_cases i 7) as [Hlt | Hge].
    - rewrite Z.shiftl_spec_low by exact Hlt. reflexivity.
    - replace lsb with (lsb mod 2 ^ 7) by (apply Z.mod_small; lia).
      rewrite Z.mod_pow2_bits_high by lia. apply andb_false_r. }
  rewrite <- Z.lxor_lor by exact Hdisj.
  rewrite <- Z.add_nocarry_lxor by exact Hdisj.
  rewrite Z.shiftl_mul_pow2 by lia. lia.
Qed.

Lemma to_int16_small z : -32768 <= z < 32768 -> to_int16 z = z.
Proof. intros Hz. unfold to_int16. rewrite Z.mod_small by lia. lia. Qed.

Lemma to_uint8_small z : uint8 z -> to_uint8 z = z.
Proof. intros Hz. unfold to_uint8. apply Z.mod_small. exact Hz. Qed.

End Bytes.

(** ** One step of [decode], case by case *)

Section Steps.

Implicit Types (s : state) (b : Z).

(** A status byte outside a sysex starts a new message. *)
Lemma decode_status s b :
  uint8 b -> high_bit b = true -> midiStatus s <> MidiStatus_Extended ->
  exists kind len,
    MidiStatus_to_Z kind = Z.shiftr b 4 - 8
    /\ spec_expected_remaining kind = Some len
    /\ decode s b =
         Ok {| midiStatus := kind;
               midiChannel := Z.land b 0x0F;
               midiDataRemaining := len;
               midiDataIndex := 0;
               midiData := midiData s |} [].
Proof.
  intros Hb Hhigh Hext.
  destruct (high_bit_status b Hb Hhigh) as [Hlo Hhi].
  destruct (nibbles b) as [Hs _]; [lia |].
  assert (Hk : 0 <= Z.shiftr b 4 - 8 <= 7).
  { rewrite Hs.
    assert (8 <= b / 16) by (apply Z.div_le_lower_bound; lia).
    assert (b / 16 < 16) by (apply Z.div_lt_upper_bound; lia).
    lia. }
  unfold decode, decode_with. rewrite Hhigh.
  set (k := Z.shiftr b 4 - 8) in *.
  assert (Hcases : k = 0 \/ k = 1 \/ k = 2 \/ k = 3 \/
                   k = 4 \/ k = 5 \/ k = 6 \/ k = 7) by lia.
  destruct (midiStatus s); try contradiction;
    decompose [or] Hcases; clear Hcases;
    match goal with H : k = _ |- _ => rewrite H end;
    do 2 eexists; solve [split; [| split]; [| | reflexivity]; reflexivity].
Qed.

(** A status byte during a sysex ends the sysex and is not looked at
    further. *)
Lemma decode_end_of_sysex s b :
  high_bit b = true -> midiStatus s = MidiStatus_Extended ->
  decode s b =
    Ok {| midiStatus := MidiStatus_Unknown;
          midiChannel := midiChannel s;
          midiDataRemaining := midiDataRemaining s;
          midiDataIndex := midiDataIndex s;
          midiData := midiData s |}
       [sysex (midiDataIndex s) (midiData s)].
Proof.
  intros Hhigh Hext. unfold decode, decode_with.
  rewrite Hhigh, Hext. reflexivity.
Qed.

(** A data byte that is not expected is dropped. *)
Lemma decode_data_dropped s b :
  high_bit b = false -> midiDataRemaining s <= 0 -> decode s b = Ok s [].
Proof.
  intros Hhigh Hrem. unfold decode, decode_with. rewrite Hhigh.
  destruct (Z.ltb_spec 0 (midiDataRemaining s)); [lia | reflexivity].
Qed.

(** A data byte that is expected is stored; the message is dispatched
    when it was the last one. *)
Lemma decode_data_stored s b :
  inv s -> high_bit b = false -> 0 < midiDataRemaining s ->
  let s' := {| midiStatus := midiStatus s;
               midiChannel := midiChannel s;
               midiDataRemaining := midiDataRemaining s - 1;
               midiDataIndex := midiDataIndex s + 1;
               midiData := <[Z.to_nat (midiDataIndex s) := b]> (midiData s) |} in
  decode s b =
    Ok s' (if midiDataRemaining s =? 1 then dispatchCommand s' else []).
Proof.
  intros [Hlen Hidx Hrem Hfits] Hhigh Hpos s'.
  unfold maxMidiData in *.
  unfold decode, decode_with. rewrite Hhigh.
  destruct (Z.ltb_spec 0 (midiDataRemaining s)); [| lia].
  unfold store_at.
  destruct (Z.leb_spec 0 (midiDataIndex s)); [| lia].
  destruct (Z.ltb_spec (midiDataIndex s) (Z.of_nat (length (midiData s))));
    [| lia].
  cbn [andb midiDataRemaining].
  rewrite !to_uint8_small by (unfold uint8; lia).
  replace (midiDataRemaining s - 1 =? 0) with (midiDataRemaining s =? 1)
    by (destruct (Z.eqb_spec (midiDataRemaining s) 1),
                 (Z.eqb_spec (midiDataRemaining s - 1) 0); lia).
  reflexivity.
Qed.

(** The invariant holds at the start and after every step, and no step
    from a state with the invariant faults. *)
Lemma inv_init : inv init.
Proof. split; [reflexivity | cbn; unfold maxMidiData; lia ..]. Qed.

Lemma decode_inv s b :
  inv s -> uint8 b -> exists s' calls, decode s b = Ok s' calls /\ inv s'.
Proof.
  intros Hinv Hb.
  destruct (high_bit b) eqn:Hhigh.
  - destruct (decide (midiStatus s = MidiStatus_Extended)) as [Hext | Hext].
    + rewrite decode_end_of_sysex by assumption.
      do 2 eexists. split; [reflexivity |].
      destruct Hinv. split; assumption.
    + destruct (decode_status s b Hb Hhigh Hext) as (kind & len & _ & Hlen & ->).
      do 2 eexists. split; [reflexivity |].
      destruct Hinv as [Hl _ _ _].
      split; cbn; try assumption; unfold maxMidiData;
        destruct kind; cbn in Hlen; inversion Hlen; lia.
  - destruct (Z.lt_ge_cases 0 (midiDataRemaining s)) as [Hpos | Hnone].
    + rewrite decode_data_stored by assumption.
      do 2 eexists. split; [reflexivity |].
      destruct Hinv as [Hl Hi Hr Hf].
      split; cbn; [rewrite length_insert; exact Hl | lia ..].
    + rewrite decode_data_dropped by assumption.
      do 2 eexists. split; [reflexivity | exact Hinv].
Qed.

Lemma dispatch_inv received :
  forall s, inv s -> Forall uint8 received ->
  exists s' calls, dispatch s received = Ok s' calls /\ inv s'.
Proof.
  induction received as [| b rest IH]; intros s Hinv Hall.
  - do 2 eexists. split; [reflexivity | exact Hinv].
  - inversion Hall as [| ? ? Hb Hrest]; subst.
    destruct (decode_inv s b Hinv Hb) as (s1 & calls1 & Hstep & Hinv1).
    destruct (IH s1 Hinv1 Hrest) as (s2 & calls2 & Hrun & Hinv2).
    exists s2, (calls1 ++ calls2).
    split; [| exact Hinv2].
    cbn [dispatch]. rewrite Hstep. cbn [and_then]. rewrite Hrun. reflexivity.
Qed.

(** Data bytes that arrive when none is expected leave everything as it
    is. *)
Lemma dispatch_data_dropped ds :
  forall s, midiDataRemaining s <= 0 -> Forall data_byte ds ->
  dispatch s ds = Ok s [].
Proof.
  induction ds as [| d ds IH]; intros s Hrem Hall; [reflexivity |].
  inversion Hall as [| ? ? Hd Hds]; subst.
  cbn [dispatch].
  rewrite decode_data_dropped by (auto using high_bit_data).
  cbn [and_then]. rewrite IH by assumption. reflexivity.
Qed.

(** One more byte after a run. *)
Lemma dispatch_snoc received :
  forall s s1 s2 b calls1 calls2,
  dispatch s received = Ok s1 calls1 -> decode s1 b = Ok s2 calls2 ->
  dispatch s (received ++ [b]) = Ok s2 (calls1 ++ calls2).
Proof.
  induction received as [| b0 rest IH]; intros s s1 s2 b calls1 calls2 Hrun Hstep.
  - cbn in Hrun. injection Hrun as <- <-.
    cbn [app dispatch]. rewrite Hstep. cbn [and_then dispatch].
    rewrite app_nil_r. reflexivity.
  - cbn [app dispatch] in Hrun |- *.
    destruct (decode s b0) as [s0 calls0 |]; [| discriminate].
    cbn [and_then] in Hrun |- *.
    destruct (dispatch s0 rest) as [s1' calls1' |] eqn:Hrest; [| discriminate].
    injection Hrun as -> <-.
    rewrite (IH s0 s1 s2 b calls1' calls2 Hrest Hstep).
    rewrite app_assoc. reflexivity.
Qed.

End Steps.

(** ** Whole messages *)

Section Messages.

Implicit Types (s : state) (kind : MidiStatus) (n : Z).

(** The status byte of a given kind and channel. *)
Lemma decode_status_of_kind s kind n len :
  midiStatus s <> MidiStatus_Extended ->
  spec_expected_remaining kind = Some len -> 0 <= n < 16 ->
  decode s (0x80 + 16 * MidiStatus_to_Z kind + n) =
    Ok {| midiStatus := kind;
          midiChannel := n;
          midiDataRemaining := len;
          midiDataIndex := 0;
          midiData := midiData s |} [].
Proof.
  intros Hext Hlen Hn.
  assert (Hk : 0 <= MidiStatus_to_Z kind <= 7)
    by (destruct kind; cbn in *; try discriminate; lia).
  destruct (status_byte_fields _ _ Hk Hn) as (Hhigh & Hshift & Hland).
  unfold decode, decode_with. rewrite Hhigh, Hshift, Hland.
  destruct (midiStatus s); try contradiction;
    destruct kind; cbn in Hlen |- *; inversion Hlen; reflexivity.
Qed.

(** A message of two data bytes: nothing is called before the second
    data byte; with it the message is dispatched, from a buffer that
    holds the two bytes. *)
Lemma two_byte_message s kind n d0 d1 :
  length (midiData s) = Z.to_nat maxMidiData ->
  midiStatus s <> MidiStatus_Extended ->
  spec_expected_remaining kind = Some 2 -> 0 <= n < 16 ->
  data_byte d0 -> data_byte d1 ->
  exists s2 s3,
    dispatch s [0x80 + 16 * MidiStatus_to_Z kind + n; d0] = Ok s2 []
    /\ decode s2 d1 = Ok s3 (dispatchCommand s3)
    /\ midiStatus s3 = kind /\ midiChannel s3 = n
    /\ data_at s3 0 = d0 /\ data_at s3 1 = d1.
Proof.
  intros Hlen Hext Hkind Hn Hd0 Hd1.
  cbn [dispatch].
  rewrite (decode_status_of_kind s kind n 2) by assumption.
  cbn [and_then].
  rewrite decode_data_stored;
    [| split; cbn; unfold maxMidiData in *; lia
     | apply high_bit_data; exact Hd0 | cbn; lia].
  cbn.
  do 2 eexists. split; [reflexivity |].
  rewrite decode_data_stored;
    [| split; cbn; rewrite ?length_insert; unfold maxMidiData in *; lia
     | apply high_bit_data; exact Hd1 | cbn; lia].
  cbn.
  split; [reflexivity |].
  split; [reflexivity |]. split; [reflexivity |].
  unfold data_at. cbn [midiData].
  destruct (midiData s) as [| x0 [| x1 rest]];
    [cbn in Hlen; unfold maxMidiData in Hlen; lia .. |].
  split; reflexivity.
Qed.

(** Data bytes of a sysex are stored one after the other, as long as
    they are expected, and nothing is called. *)
Lemma sysex_data_stored ds :
  forall s, inv s -> midiStatus s = MidiStatus_Extended ->
  Forall data_byte ds -> Z.of_nat (length ds) <= midiDataRemaining s ->
  exists s',
    dispatch s ds = Ok s' []
    /\ inv s'
    /\ midiStatus s' = MidiStatus_Extended
    /\ midiDataIndex s' = midiDataIndex s + Z.of_nat (length ds)
    /\ midiDataRemaining s' = midiDataRemaining s - Z.of_nat (length ds)
    /\ take (Z.to_nat (midiDataIndex s')) (midiData s') =
         take (Z.to_nat (midiDataIndex s)) (midiData s) ++ ds.
Proof.
  induction ds as [| d ds IH]; intros s Hinv Hext Hall Hroom.
  - exists s. cbn [length dispatch]. rewrite !Z.add_0_r, Z.sub_0_r, app_nil_r.
    repeat split; auto; apply Hinv.
  - inversion Hall as [| ? ? Hd Hds]; subst. cbn [length] in Hroom.
    pose proof Hinv as [Hlen Hidx Hrem Hfits].
    set (s1 := {| midiStatus := midiStatus s;
                  midiChannel := midiChannel s;
                  midiDataRemaining := midiDataRemaining s - 1;
                  midiDataIndex := midiDataIndex s + 1;
                  midiData := <[Z.to_nat (midiDataIndex s) := d]> (midiData s) |}).
    assert (Hstep : decode s d = Ok s1 []).
    { rewrite decode_data_stored by (auto using high_bit_data; lia).
      fold s1. unfold dispatchCommand. subst s1. cbn [midiStatus]. rewrite Hext.
      destruct (midiDataRemaining s =? 1); reflexivity. }
    assert (Hinv1 : inv s1).
    { split; cbn; rewrite ?length_insert; lia. }
    destruct (IH s1 Hinv1 Hext Hds) as (s' & Hrun & Hinv' & Hst & Hi & Hr & Htake);
      [cbn; lia |].
    exists s'. cbn [dispatch]. rewrite Hstep. cbn [and_then]. rewrite Hrun.
    cbn [midiDataIndex midiDataRemaining midiData s1] in Hi, Hr, Htake.
    repeat split; try apply Hinv'; try assumption; cbn [length]; try lia.
    rewrite Htake.
    replace (Z.to_nat (midiDataIndex s + 1)) with (S (Z.to_nat (midiDataIndex s)))
      by lia.
    rewrite (take_S_r _ _ d)
      by (apply list_lookup_insert_eq; unfold maxMidiData in *; lia).
    rewrite take_insert_ge by lia.
    rewrite <- app_assoc. reflexivity.
Qed.

(** A whole sysex of at most [maxMidiData] data bytes: the terminating
    status byte hands the handler the number of data bytes and a buffer
    that starts with exactly those bytes. *)
Lemma sysex_message s n ds b :
  length (midiData s) = Z.to_nat maxMidiData ->
  midiStatus s <> MidiStatus_Extended -> 0 <= n < 16 ->
  Forall data_byte ds -> Z.of_nat (length ds) <= maxMidiData ->
  high_bit b = true ->
  exists s1 s2 buf,
    dispatch s (0xF0 + n :: ds) = Ok s1 []
    /\ decode s1 b = Ok s2 [sysex (Z.of_nat (length ds)) buf]
    /\ take (length ds) buf = ds
    /\ midiStatus s2 = MidiStatus_Unknown.
Proof.
  intros Hlen Hext Hn Hall Hroom Hhigh.
  cbn [dispatch].
  replace (0xF0 + n) with (0x80 + 16 * MidiStatus_to_Z MidiStatus_Extended + n)
    by (cbn; lia).
  rewrite (decode_status_of_kind s MidiStatus_Extended n 32)
    by (assumption || reflexivity).
  cbn [and_then].
  match goal with |- context [dispatch ?s0 ds] =>
    destruct (sysex_data_stored ds s0) as (s1 & Hrun & _ & Hst & Hi & _ & Htake)
  end; [split; cbn; unfold maxMidiData in *; lia | reflexivity | assumption
       | cbn; unfold maxMidiData in *; lia |].
  cbn [midiDataIndex midiData] in Hi, Htake.
  rewrite Hrun. cbn [app].
  exists s1. eexists. exists (midiData s1).
  split; [reflexivity |].
  rewrite (decode_end_of_sysex s1 b Hhigh Hst).
  rewrite Hi, Z.add_0_l.
  split; [reflexivity |].
  split; [| reflexivity].
  rewrite Hi, Z.add_0_l, Nat2Z.id in Htake. exact Htake.
Qed.

End Messages.

(** ** The example states are reached *)

Example sysex_in_progress_reached :
  dispatch init [0xF0; 0x01; 0x02] = Ok sysex_in_progress [].
Proof. reflexivity. Qed.

Example after_sysex_reached :
  exists buf, dispatch init [0xF0; 0x01; 0xF7] = Ok after_sysex [sysex 1 buf].
Proof. eexists. reflexivity. Qed.

Example note_on_pending_reached :
  dispatch init [0x90; 0x3C] = Ok note_on_pending [].
Proof. reflexivity. Qed.

(** ** The properties of the decoder *)

(** C1: in a state whose status is Extended, with [k] bytes stored
    ([midiDataIndex = k]), any byte with its most significant bit set calls
    the sysex handler exactly once, with the length [k] and the buffer
    whose first [k] bytes are the stored ones, and sets the status to
    Unknown; the channel, the count of remaining bytes, the index and the
    buffer stay as they were, so the byte does not start a new message. *)
Theorem C1_status_byte_ends_sysex (s : state) (b k : Z) :
  midiStatus s = MidiStatus_Extended -> midiDataIndex s = k ->
  uint8 b -> high_bit b = true ->
  decode s b =
    Ok {| midiStatus := MidiStatus_Unknown;
          midiChannel := midiChannel s;
          midiDataRemaining := midiDataRemaining s;
          midiDataIndex := k;
          midiData := midiData s |}
       [sysex k (midiData s)].
Proof.
  intros Hext Hk _ Hhigh. subst k.
  apply decode_end_of_sysex; assumption.
Qed.

Lemma C1_witness :
  decode sysex_in_progress 0xF7 =
    Ok {| midiStatus := MidiStatus_Unknown;
          midiChannel := 0;
          midiDataRemaining := 30;
          midiDataIndex := 2;
          midiData := [0x01; 0x02] ++ replicate 30 0 |}
       [sysex 2 ([0x01; 0x02] ++ replicate 30 0)].
Proof.
  apply (C1_status_byte_ends_sysex sysex_in_progress 0xF7 2);
    [reflexivity | reflexivity | unfold uint8; lia | reflexivity].
Defined.

(** C2: a complete Note-On message, [0x9n note velocity] with both data
    bytes below 0x80: nothing is called before the last data byte; the
    last data byte calls [noteOff(n, note)] and nothing else when the
    velocity is 0, and [noteOn(n, note, velocity)] exactly once and nothing
    else when it is not. *)
Theorem C2_note_on (s : state) (n note velocity : Z) :
  length (midiData s) = Z.to_nat maxMidiData ->
  midiStatus s <> MidiStatus_Extended ->
  0 <= n < 16 -> data_byte note -> data_byte velocity ->
  exists s2 s3,
    dispatch s [0x90 + n; note] = Ok s2 []
    /\ decode s2 velocity =
         Ok s3 (if velocity =? 0 then [noteOff n note]
                else [noteOn n note velocity]).
Proof.
  intros Hlen Hext Hn Hnote Hvel.
  destruct (two_byte_message s MidiStatus_NoteOn n note velocity)
    as (s2 & s3 & Hrun & Hlast & Hst & Hch & Hd0 & Hd1);
    try assumption; [reflexivity |].
  exists s2, s3. split; [exact Hrun |].
  rewrite Hlast. unfold dispatchCommand. rewrite Hst, Hch, Hd0, Hd1.
  reflexivity.
Qed.

Lemma C2_witness :
  exists s2 s3,
    dispatch init [0x90 + 0; 0x3C] = Ok s2 []
    /\ decode s2 0x40 = Ok s3 [noteOn 0 0x3C 0x40].
Proof.
  apply (C2_note_on init 0 0x3C 0x40);
    [reflexivity | discriminate | lia | unfold data_byte; lia ..].
Defined.

(** The value of a pitch bend, as [dispatchCommand] computes it in
    [int16_t], from two data bytes: no step wraps around. *)
Lemma pitch_bend_value (lsb msb : Z) :
  data_byte lsb -> data_byte msb ->
  to_int16 (to_int16 (Z.lor (to_int16 (Z.shiftl (to_int16 msb) 7)) lsb) - 0x2000)
    = Z.lor (Z.shiftl msb 7) lsb - 0x2000
  /\ Z.lor (Z.shiftl msb 7) lsb = 128 * msb + lsb.
Proof.
  unfold data_byte. intros Hl Hm.
  assert (Hjoin : Z.lor (Z.shiftl msb 7) lsb = 128 * msb + lsb)
    by (apply lor_shiftl_7; exact Hl).
  split; [| exact Hjoin].
  rewrite (to_int16_small msb) by lia.
  rewrite (to_int16_small (Z.shiftl msb 7))
    by (rewrite Z.shiftl_mul_pow2 by lia; lia).
  rewrite Hjoin.
  rewrite (to_int16_small (128 * msb + lsb)) by lia.
  apply to_int16_small. lia.
Qed.

(** C3: a complete pitch-bend message, [0xEn lsb msb] with both data bytes
    below 0x80: nothing is called before the second data byte; the second
    data byte calls [pitchBend(n, v)] exactly once, with
    [v = ((msb << 7) | lsb) - 0x2000], and [v] lies in -8192..8191. *)
Theorem C3_pitch_bend (s : state) (n lsb msb : Z) :
  length (midiData s) = Z.to_nat maxMidiData ->
  midiStatus s <> MidiStatus_Extended ->
  0 <= n < 16 -> data_byte lsb -> data_byte msb ->
  exists s2 s3 v,
    dispatch s [0xE0 + n; lsb] = Ok s2 []
    /\ decode s2 msb = Ok s3 [pitchBend n v]
    /\ v = Z.lor (Z.shiftl msb 7) lsb - 0x2000
    /\ -8192 <= v <= 8191.
Proof.
  intros Hlen Hext Hn Hl Hm.
  destruct (two_byte_message s MidiStatus_PitchBend n lsb msb)
    as (s2 & s3 & Hrun & Hlast & Hst & Hch & Hd0 & Hd1);
    try assumption; [reflexivity |].
  destruct (pitch_bend_value lsb msb Hl Hm) as [Hv Hjoin].
  exists s2, s3, (Z.lor (Z.shiftl msb 7) lsb - 0x2000).
  split; [exact Hrun |].
  split; [| split; [reflexivity | unfold data_byte in *; lia]].
  rewrite Hlast. unfold dispatchCommand. rewrite Hst, Hch, Hd0, Hd1.
  cbv zeta. rewrite Hv. reflexivity.
Qed.

Lemma C3_witness :
  exists s2 s3 v,
    dispatch init [0xE0 + 3; 0x00] = Ok s2 []
    /\ decode s2 0x40 = Ok s3 [pitchBend 3 v]
    /\ v = Z.lor (Z.shiftl 0x40 7) 0x00 - 0x2000
    /\ -8192 <= v <= 8191.
Proof.
  apply (C3_pitch_bend init 3 0x00 0x40);
    [reflexivity | discriminate | lia | unfold data_byte; lia ..].
Defined.

(** C4, as stated, fails: after the sysex [0xF0 0x01 0xF7] the status is
    Unknown while 31 data bytes are still expected, and the data byte 0x05
    is stored: the index goes from 1 to 2 and the count from 31 to 30. *)
Lemma C4_counterexample :
  (exists buf, dispatch init [0xF0; 0x01; 0xF7] = Ok after_sysex [sysex 1 buf])
  /\ midiStatus after_sysex = MidiStatus_Unknown
  /\ data_byte 0x05
  /\ exists s',
       decode after_sysex 0x05 = Ok s' []
       /\ midiDataRemaining after_sysex = 31 /\ midiDataRemaining s' = 30
       /\ midiDataIndex after_sysex = 1 /\ midiDataIndex s' = 2.
Proof.
  split; [eexists; reflexivity |].
  split; [reflexivity |].
  split; [unfold data_byte; lia |].
  eexists. split; [reflexivity |]. repeat split.
Qed.

(** C4, amended: in a state whose status is Unknown a data byte calls no
    handler; when no data byte is expected ([midiDataRemaining] is 0, as in
    the initial state) it leaves the whole state, and so the count and the
    index, unchanged. *)
Theorem C4_data_byte_in_unknown (s : state) (b : Z) :
  inv s -> midiStatus s = MidiStatus_Unknown -> data_byte b ->
  exists s',
    decode s b = Ok s' []
    /\ (midiDataRemaining s = 0 ->
        s' = s /\ midiDataRemaining s' = midiDataRemaining s
        /\ midiDataIndex s' = midiDataIndex s).
Proof.
  intros Hinv Hunk Hb.
  pose proof (high_bit_data b Hb) as Hhigh.
  destruct (Z.lt_ge_cases 0 (midiDataRemaining s)) as [Hpos | Hnone].
  - rewrite decode_data_stored by assumption.
    eexists. split; [| lia].
    unfold dispatchCommand. cbn [midiStatus]. rewrite Hunk.
    destruct (midiDataRemaining s =? 1); reflexivity.
  - rewrite decode_data_dropped by assumption.
    exists s. split; [reflexivity | auto].
Qed.

Lemma C4_witness :
  exists s',
    decode init 0x05 = Ok s' []
    /\ (midiDataRemaining init = 0 ->
        s' = init /\ midiDataRemaining s' = midiDataRemaining init
        /\ midiDataIndex s' = midiDataIndex init).
Proof.
  apply (C4_data_byte_in_unknown init 0x05);
    [exact inv_init | reflexivity | unfold data_byte; lia].
Defined.

(** A sysex of 40 data bytes: the first 32 fill the buffer, the other 8
    are dropped, and the handler gets the 32. *)
Example overlong_sysex :
  exists s, dispatch init (0xF0 :: replicate 40 0x11 ++ [0xF7])
            = Ok s [sysex 32 (replicate 32 0x11)].
Proof. eexists. vm_compute. reflexivity. Qed.

(** C5: after any sequence of bytes from the initial state the decoder has
    not faulted, so every write went inside the buffer; the index is at
    most the capacity of the buffer (32); a byte that is about to be
    stored (one is still expected) goes to an index below the capacity;
    and the next byte, whatever it is, is decoded without a fault. *)
Theorem C5_index_within_buffer (received : list Z) :
  Forall uint8 received ->
  exists s calls,
    dispatch init received = Ok s calls
    /\ length (midiData s) = Z.to_nat maxMidiData
    /\ 0 <= midiDataIndex s <= maxMidiData
    /\ (0 < midiDataRemaining s -> midiDataIndex s < maxMidiData)
    /\ forall b, uint8 b -> exists s' calls', decode s b = Ok s' calls'.
Proof.
  intros Hall.
  destruct (dispatch_inv received init inv_init Hall) as (s & calls & Hrun & Hinv).
  exists s, calls. split; [exact Hrun |].
  pose proof Hinv as [Hlen Hidx Hrem Hfits].
  split; [exact Hlen |]. split; [lia |]. split; [lia |].
  intros b Hb.
  destruct (decode_inv s b Hinv Hb) as (s' & calls' & Hstep & _).
  exists s', calls'. exact Hstep.
Qed.

Lemma C5_witness :
  exists s calls,
    dispatch init [0xF0; 0x01; 0x02; 0x03] = Ok s calls
    /\ length (midiData s) = Z.to_nat maxMidiData
    /\ 0 <= midiDataIndex s <= maxMidiData
    /\ (0 < midiDataRemaining s -> midiDataIndex s < maxMidiData)
    /\ forall b, uint8 b -> exists s' calls', decode s b = Ok s' calls'.
Proof.
  apply (C5_index_within_buffer [0xF0; 0x01; 0x02; 0x03]).
  repeat constructor; unfold uint8; lia.
Defined.

(** C6: outside a sysex, a byte with its most significant bit set makes
    the status the kind numbered [(b >> 4) - 8], the channel [b & 0x0F],
    the count of expected data bytes the entry of the table for that kind
    (2, 2, 2, 2, 1, 1, 2 and 32 for Extended), and the index 0; it calls no
    handler. *)
Theorem C6_status_byte_starts_message (s : state) (b : Z) :
  uint8 b -> high_bit b = true -> midiStatus s <> MidiStatus_Extended ->
  exists kind len,
    MidiStatus_to_Z kind = Z.shiftr b 4 - 8
    /\ spec_expected_remaining kind = Some len
    /\ at_index midiStatusToDataLength (Z.shiftr b 4 - 8) = Some len
    /\ decode s b =
         Ok {| midiStatus := kind;
               midiChannel := Z.land b 0x0F;
               midiDataRemaining := len;
               midiDataIndex := 0;
               midiData := midiData s |} [].
Proof.
  intros Hb Hhigh Hext.
  destruct (decode_status s b Hb Hhigh Hext) as (kind & len & Hk & Hlen & Hstep).
  exists kind, len. repeat split; try assumption.
  rewrite <- Hk. destruct kind; cbn in Hlen |- *; try discriminate; exact Hlen.
Qed.

Lemma C6_witness :
  exists kind len,
    MidiStatus_to_Z kind = Z.shiftr 0xC5 4 - 8
    /\ spec_expected_remaining kind = Some len
    /\ at_index midiStatusToDataLength (Z.shiftr 0xC5 4 - 8) = Some len
    /\ decode note_on_pending 0xC5 =
         Ok {| midiStatus := kind;
               midiChannel := Z.land 0xC5 0x0F;
               midiDataRemaining := len;
               midiDataIndex := 0;
               midiData := midiData note_on_pending |} [].
Proof.
  apply (C6_status_byte_starts_message note_on_pending 0xC5);
    [unfold uint8; lia | reflexivity | discriminate].
Defined.

(** Two bytes joined by [(d1 << 7) | d0] stay below 2^15. *)
Lemma lor_shiftl_7_uint8 (d0 d1 : Z) :
  uint8 d0 -> uint8 d1 -> 0 <= Z.lor (Z.shiftl d1 7) d0 < 32768.
Proof.
  unfold uint8. intros H0 H1.
  assert (Hhi : 0 <= Z.shiftl d1 7 < 2 ^ 15)
    by (rewrite Z.shiftl_mul_pow2 by lia; lia).
  assert (Hmod : Z.lor (Z.shiftl d1 7) d0 = Z.lor (Z.shiftl d1 7) d0 mod 2 ^ 15).
  { apply Z.bits_inj'. intros i Hi.
    rewrite Z.testbit_mod_pow2 by lia.
    destruct (Z.ltb_spec i 15) as [Hlt | Hge]; [reflexivity |].
    rewrite Z.lor_spec.
    replace (Z.shiftl d1 7) with (Z.shiftl d1 7 mod 2 ^ 15)
      by (apply Z.mod_small; lia).
    replace d0 with (d0 mod 2 ^ 15) by (apply Z.mod_small; lia).
    rewrite !Z.mod_pow2_bits_high by lia. reflexivity. }
  rewrite Hmod. change 32768 with (2 ^ 15). apply Z.mod_pos_bound. lia.
Qed.

(** The value of a pitch bend, as [dispatchCommand] computes it in
    [int16_t], from any two bytes of the buffer: no step wraps around. *)
Lemma pitch_bend_value_uint8 (d0 d1 : Z) :
  uint8 d0 -> uint8 d1 ->
  to_int16 (to_int16 (Z.lor (to_int16 (Z.shiftl (to_int16 d1) 7)) d0) - 0x2000)
    = Z.lor (Z.shiftl d1 7) d0 - 0x2000.
Proof.
  intros H0 H1.
  pose proof (lor_shiftl_7_uint8 d0 d1 H0 H1) as Hjoin.
  unfold uint8 in *.
  rewrite (to_int16_small d1) by lia.
  rewrite (to_int16_small (Z.shiftl d1 7))
    by (rewrite Z.shiftl_mul_pow2 by lia; lia).
  rewrite (to_int16_small (Z.lor (Z.shiftl d1 7) d0)) by lia.
  apply to_int16_small. lia.
Qed.

(** On a buffer of bytes [dispatchCommand] makes the call of the
    dispatch table of the specification, for the status, the channel and
    the first two bytes of the buffer. *)
Lemma dispatchCommand_spec (s : state) :
  Forall uint8 (midiData s) ->
  dispatchCommand s =
    spec_dispatch (midiStatus s) (midiChannel s) (data_at s 0) (data_at s 1).
Proof.
  intros Hbytes.
  assert (Hat : forall i, uint8 (data_at s i)).
  { intros i. unfold data_at.
    destruct (midiData s !! i) as [x |] eqn:Hx; cbn.
    - exact (Forall_lookup_1 _ _ _ _ Hbytes Hx).
    - unfold uint8. lia. }
  unfold dispatchCommand, spec_dispatch.
  destruct (midiStatus s); try reflexivity.
  cbv zeta. rewrite (pitch_bend_value_uint8 _ _ (Hat 0%nat) (Hat 1%nat)).
  reflexivity.
Qed.

(** C7: when a data byte is the last one a message of a kind other than
    Extended expects, the message is dispatched: the step makes the
    handler call of the dispatch table for the status, with the channel
    and the first two bytes of the buffer as it is after the byte has been
    stored ([noteOff], [noteOn] or [noteOff] for a velocity of 0,
    [controlChange], [programChange], [pitchBend], and no call for the two
    pressure kinds).  The status and the channel stay what they were and
    the count of expected bytes is 0; the data bytes that follow without a
    status byte are dropped, however many, and call no handler. *)
Theorem C7_no_running_status (s : state) (b : Z) :
  inv s -> Forall uint8 (midiData s) ->
  midiStatus s <> MidiStatus_Extended ->
  midiDataRemaining s = 1 -> data_byte b ->
  exists s',
    decode s b =
      Ok s' (spec_dispatch (midiStatus s) (midiChannel s)
               (data_at s' 0) (data_at s' 1))
    /\ midiStatus s' = midiStatus s
    /\ midiChannel s' = midiChannel s
    /\ midiDataRemaining s' = 0
    /\ midiDataIndex s' = midiDataIndex s + 1
    /\ midiData s' = <[Z.to_nat (midiDataIndex s) := b]> (midiData s)
    /\ forall ds, Forall data_byte ds -> dispatch s' ds = Ok s' [].
Proof.
  intros Hinv Hbytes _ Hone Hb.
  rewrite decode_data_stored by (auto using high_bit_data; lia).
  rewrite Hone. cbn [Z.eqb Pos.eqb].
  eexists. split.
  - rewrite dispatchCommand_spec; [reflexivity |].
    cbn [midiData]. apply Forall_insert; [exact Hbytes |].
    unfold data_byte, uint8 in *. lia.
  - cbn [midiStatus midiChannel midiDataRemaining midiDataIndex midiData].
    repeat (split; [reflexivity || lia |]).
    intros ds Hds. apply dispatch_data_dropped; [cbn; lia | exact Hds].
Qed.

Lemma C7_witness :
  exists s',
    decode note_on_pending 0x40 =
      Ok s' (spec_dispatch (midiStatus note_on_pending)
               (midiChannel note_on_pending) (data_at s' 0) (data_at s' 1))
    /\ midiStatus s' = midiStatus note_on_pending
    /\ midiChannel s' = midiChannel note_on_pending
    /\ midiDataRemaining s' = 0
    /\ midiDataIndex s' = midiDataIndex note_on_pending + 1
    /\ midiData s' =
         <[Z.to_nat (midiDataIndex note_on_pending) := 0x40]>
           (midiData note_on_pending)
    /\ forall ds, Forall data_byte ds -> dispatch s' ds = Ok s' [].
Proof.
  apply (C7_no_running_status note_on_pending 0x40);
    [split; cbn; unfold maxMidiData; lia
    | apply Forall_app; split;
        [repeat constructor | apply Forall_replicate]; unfold uint8; lia
    | discriminate | reflexivity | unfold data_byte; lia].
Defined.

(** The call of the witness above is [noteOn(0, 0x3C, 0x40)]. *)
Example note_on_completed :
  exists s', decode note_on_pending 0x40 = Ok s' [noteOn 0 0x3C 0x40].
Proof. eexists. reflexivity. Qed.

(** C8: round trip of the pitch bend.  A signed value [v] in -8192..8191,
    sent as [lsb = (v + 0x2000) & 0x7F] and [msb = (v + 0x2000) >> 7] after
    a pitch-bend status byte, comes back as [pitchBend(n, v)], the only
    call of the three bytes; both halves are data bytes. *)
Theorem C8_pitch_bend_round_trip (s : state) (n v : Z) :
  length (midiData s) = Z.to_nat maxMidiData ->
  midiStatus s <> MidiStatus_Extended ->
  0 <= n < 16 -> -8192 <= v <= 8191 ->
  let lsb := Z.land (v + 0x2000) 0x7F in
  let msb := Z.shiftr (v + 0x2000) 7 in
  data_byte lsb /\ data_byte msb
  /\ exists s', dispatch s [0xE0 + n; lsb; msb] = Ok s' [pitchBend n v].
Proof.
  intros Hlen Hext Hn Hv lsb msb.
  assert (Hlsb : lsb = (v + 8192) mod 128).
  { unfold lsb. change 0x7F with (Z.ones 7). rewrite Z.land_ones by lia.
    reflexivity. }
  assert (Hmsb : msb = (v + 8192) / 128).
  { unfold msb. rewrite Z.shiftr_div_pow2 by lia. reflexivity. }
  assert (Hl : data_byte lsb).
  { unfold data_byte. rewrite Hlsb. apply Z.mod_pos_bound. lia. }
  assert (Hm : data_byte msb).
  { unfold data_byte. rewrite Hmsb. split.
    - apply Z.div_pos; lia.
    - apply Z.div_lt_upper_bound; lia. }
  split; [exact Hl |]. split; [exact Hm |].
  destruct (two_byte_message s MidiStatus_PitchBend n lsb msb)
    as (s2 & s3 & Hrun & Hlast & Hst & Hch & Hd0 & Hd1);
    try assumption; [reflexivity |].
  destruct (pitch_bend_value lsb msb Hl Hm) as [Hval Hjoin].
  exists s3.
  replace (0xE0 + n)
    with (0x80 + 16 * MidiStatus_to_Z MidiStatus_PitchBend + n) by (cbn; lia).
  change [?b0; lsb; msb] with ([b0; lsb] ++ [msb]).
  rewrite (dispatch_snoc _ _ _ _ _ _ _ Hrun Hlast). cbn [app].
  unfold dispatchCommand. rewrite Hst, Hch, Hd0, Hd1. cbv zeta.
  rewrite Hval, Hjoin, Hlsb, Hmsb.
  do 3 f_equal.
  pose proof (Z.div_mod (v + 8192) 128). lia.
Qed.

Lemma C8_witness :
  data_byte (Z.land (-1 + 0x2000) 0x7F)
  /\ data_byte (Z.shiftr (-1 + 0x2000) 7)
  /\ exists s',
       dispatch init
         [0xE0 + 2; Z.land (-1 + 0x2000) 0x7F; Z.shiftr (-1 + 0x2000) 7]
       = Ok s' [pitchBend 2 (-1)].
Proof.
  apply (C8_pitch_bend_round_trip init 2 (-1));
    [reflexivity | discriminate | lia | lia].
Defined.

(** C9: for a byte with its most significant bit set, [(b >> 4) - 8] lies
    in 0..7, the table of 8 data lengths has an entry there, and [decode]
    does not leave the table, whatever the state; for a byte with that bit
    clear, [decode] does the same over any table, also an empty one: it
    does not read the table. *)
Theorem C9_table_index_in_range (b : Z) :
  uint8 b ->
  (high_bit b = true ->
     0 <= Z.shiftr b 4 - 8 <= 7
     /\ Z.shiftr b 4 - 8 < Z.of_nat (length midiStatusToDataLength)
     /\ is_Some (at_index midiStatusToDataLength (Z.shiftr b 4 - 8))
     /\ forall s, decode s b <> Fault TableIndexOutOfRange)
  /\ (high_bit b = false ->
      forall table s, decode_with table s b = decode s b).
Proof.
  intros Hb. split.
  - intros Hhigh.
    destruct (high_bit_status b Hb Hhigh) as [Hlo Hhi].
    destruct (nibbles b) as [Hs _]; [lia |].
    assert (Hk : 0 <= Z.shiftr b 4 - 8 <= 7).
    { rewrite Hs.
      assert (8 <= b / 16) by (apply Z.div_le_lower_bound; lia).
      assert (b / 16 < 16) by (apply Z.div_lt_upper_bound; lia).
      lia. }
    split; [exact Hk |]. split; [cbn; lia |]. split.
    + unfold at_index.
      destruct (Z.ltb_spec (Z.shiftr b 4 - 8) 0); [lia |].
      apply lookup_lt_is_Some. cbn. lia.
    + intros s.
      destruct (decide (midiStatus s = MidiStatus_Extended)) as [Hext | Hext].
      * rewrite decode_end_of_sysex by assumption. discriminate.
      * destruct (decode_status s b Hb Hhigh Hext) as (? & ? & _ & _ & ->).
        discriminate.
  - intros Hlow table s. unfold decode, decode_with. rewrite Hlow. reflexivity.
Qed.

Lemma C9_witness :
  (high_bit 0xF7 = true ->
     0 <= Z.shiftr 0xF7 4 - 8 <= 7
     /\ Z.shiftr 0xF7 4 - 8 < Z.of_nat (length midiStatusToDataLength)
     /\ is_Some (at_index midiStatusToDataLength (Z.shiftr 0xF7 4 - 8))
     /\ forall s, decode s 0xF7 <> Fault TableIndexOutOfRange)
  /\ (high_bit 0xF7 = false ->
      forall table s, decode_with table s 0xF7 = decode s 0xF7).
Proof.
  apply (C9_table_index_in_range 0xF7). unfold uint8. lia.
Defined.

(** C10: while a message of a channel kind (not Extended, not Unknown)
    still expects data bytes, a byte with its most significant bit set
    calls no handler and starts the new message: status and channel are
    those of the byte, the count is the one of the new kind and the index
    is 0, so the bytes stored for the abandoned message are overwritten
    before anything is dispatched from the buffer. *)
Theorem C10_status_byte_abandons_message (s : state) (b : Z) :
  midiStatus s <> MidiStatus_Extended -> midiStatus s <> MidiStatus_Unknown ->
  0 < midiDataRemaining s -> uint8 b -> high_bit b = true ->
  exists kind len,
    decode s b =
      Ok {| midiStatus := kind;
            midiChannel := Z.land b 0x0F;
            midiDataRemaining := len;
            midiDataIndex := 0;
            midiData := midiData s |} []
    /\ MidiStatus_to_Z kind = Z.shiftr b 4 - 8
    /\ spec_expected_remaining kind = Some len
    /\ 0 < len.
Proof.
  intros Hext _ _ Hb Hhigh.
  destruct (decode_status s b Hb Hhigh Hext) as (kind & len & Hk & Hlen & Hstep).
  exists kind, len. repeat split; try assumption.
  destruct kind; cbn in Hlen; inversion Hlen; lia.
Qed.

Lemma C10_witness :
  exists kind len,
    decode note_on_pending 0x80 =
      Ok {| midiStatus := kind;
            midiChannel := Z.land 0x80 0x0F;
            midiDataRemaining := len;
            midiDataIndex := 0;
            midiData := midiData note_on_pending |} []
    /\ MidiStatus_to_Z kind = Z.shiftr 0x80 4 - 8
    /\ spec_expected_remaining kind = Some len
    /\ 0 < len.
Proof.
  apply (C10_status_byte_abandons_message note_on_pending 0x80);
    [discriminate | discriminate | cbn; lia | unfold uint8; lia | reflexivity].
Defined.

(** ** The other rows of the dispatch table *)

(** A message of one data byte: the data byte completes it at once. *)
Lemma one_byte_message (s : state) (kind : MidiStatus) (n d0 : Z) :
  length (midiData s) = Z.to_nat maxMidiData ->
  midiStatus s <> MidiStatus_Extended ->
  spec_expected_remaining kind = Some 1 -> 0 <= n < 16 -> data_byte d0 ->
  exists s1 s2,
    decode s (0x80 + 16 * MidiStatus_to_Z kind + n) = Ok s1 []
    /\ decode s1 d0 = Ok s2 (dispatchCommand s2)
    /\ midiStatus s2 = kind /\ midiChannel s2 = n
    /\ midiDataRemaining s2 = 0 /\ data_at s2 0 = d0.
Proof.
  intros Hlen Hext Hkind Hn Hd0.
  rewrite (decode_status_of_kind s kind n 1) by assumption.
  do 2 eexists. split; [reflexivity |].
  rewrite decode_data_stored;
    [| split; cbn; unfold maxMidiData in *; lia
     | apply high_bit_data; exact Hd0 | cbn; lia].
  cbn.
  split; [reflexivity |].
  split; [reflexivity |]. split; [reflexivity |]. split; [reflexivity |].
  unfold data_at. cbn [midiData].
  destruct (midiData s) as [| x0 rest];
    [cbn in Hlen; unfold maxMidiData in Hlen; lia | reflexivity].
Qed.

(** X1: a complete Note-Off message, [0x8n note velocity]: nothing is
    called before the last data byte, which calls [noteOff(n, note)] and
    nothing else; the release velocity is not passed on. *)
Theorem X1_note_off (s : state) (n note velocity : Z) :
  length (midiData s) = Z.to_nat maxMidiData ->
  midiStatus s <> MidiStatus_Extended ->
  0 <= n < 16 -> data_byte note -> data_byte velocity ->
  exists s2 s3,
    dispatch s [0x80 + n; note] = Ok s2 []
    /\ decode s2 velocity = Ok s3 [noteOff n note].
Proof.
  intros Hlen Hext Hn Hnote Hvel.
  destruct (two_byte_message s MidiStatus_NoteOff n note velocity)
    as (s2 & s3 & Hrun & Hlast & Hst & Hch & Hd0 & Hd1);
    try assumption; [reflexivity |].
  exists s2, s3.
  replace (0x80 + n) with (0x80 + 16 * MidiStatus_to_Z MidiStatus_NoteOff + n)
    by (cbn; lia).
  split; [exact Hrun |].
  rewrite Hlast. unfold dispatchCommand. rewrite Hst, Hch, Hd0. reflexivity.
Qed.

Lemma X1_witness :
  exists s2 s3,
    dispatch init [0x80 + 1; 0x3C] = Ok s2 []
    /\ decode s2 0x7F = Ok s3 [noteOff 1 0x3C].
Proof.
  apply (X1_note_off init 1 0x3C 0x7F);
    [reflexivity | discriminate | lia | unfold data_byte; lia ..].
Defined.

(** X2: a complete Control-Change message, [0xBn controller value]:
    nothing is called before the last data byte, which calls
    [controlChange(n, controller, value)] and nothing else. *)
Theorem X2_control_change (s : state) (n controller value : Z) :
  length (midiData s) = Z.to_nat maxMidiData ->
  midiStatus s <> MidiStatus_Extended ->
  0 <= n < 16 -> data_byte controller -> data_byte value ->
  exists s2 s3,
    dispatch s [0xB0 + n; controller] = Ok s2 []
    /\ decode s2 value = Ok s3 [controlChange n controller value].
Proof.
  intros Hlen Hext Hn Hc Hv.
  destruct (two_byte_message s MidiStatus_ControlChange n controller value)
    as (s2 & s3 & Hrun & Hlast & Hst & Hch & Hd0 & Hd1);
    try assumption; [reflexivity |].
  exists s2, s3. split; [exact Hrun |].
  rewrite Hlast. unfold dispatchCommand. rewrite Hst, Hch, Hd0, Hd1.
  reflexivity.
Qed.

Lemma X2_witness :
  exists s2 s3,
    dispatch init [0xB0 + 0; 0x07] = Ok s2 []
    /\ decode s2 0x7F = Ok s3 [controlChange 0 0x07 0x7F].
Proof.
  apply (X2_control_change init 0 0x07 0x7F);
    [reflexivity | discriminate | lia | unfold data_byte; lia ..].
Defined.

(** X3: a Program-Change message has one data byte: [0xCn program] calls
    [programChange(n, program)] with that byte, and the data bytes that
    follow it are dropped without a call. *)
Theorem X3_program_change (s : state) (n program : Z) (ds : list Z) :
  length (midiData s) = Z.to_nat maxMidiData ->
  midiStatus s <> MidiStatus_Extended ->
  0 <= n < 16 -> data_byte program -> Forall data_byte ds ->
  exists s1 s2,
    decode s (0xC0 + n) = Ok s1 []
    /\ decode s1 program = Ok s2 [programChange n program]
    /\ dispatch s2 ds = Ok s2 [].
Proof.
  intros Hlen Hext Hn Hp Hds.
  destruct (one_byte_message s MidiStatus_ProgramChange n program)
    as (s1 & s2 & Hfirst & Hlast & Hst & Hch & Hrem & Hd0);
    try assumption; [reflexivity |].
  exists s1, s2. split; [exact Hfirst |]. split.
  - rewrite Hlast. unfold dispatchCommand. rewrite Hst, Hch, Hd0. reflexivity.
  - apply dispatch_data_dropped; [lia | exact Hds].
Qed.

Lemma X3_witness :
  exists s1 s2,
    decode init (0xC0 + 9) = Ok s1 []
    /\ decode s1 0x05 = Ok s2 [programChange 9 0x05]
    /\ dispatch s2 [0x06; 0x07] = Ok s2 [].
Proof.
  apply (X3_program_change init 9 0x05 [0x06; 0x07]);
    [reflexivity | discriminate | lia | unfold data_byte; lia
    | repeat constructor; unfold data_byte; lia].
Defined.

(** X4: the two pressure messages are decoded and then ignored: neither
    a complete Poly-Key-Pressure message [0xAn note pressure] nor a
    complete Channel-Pressure message [0xDn pressure] calls a handler. *)
Theorem X4_pressure_ignored (s : state) (n d0 d1 : Z) :
  length (midiData s) = Z.to_nat maxMidiData ->
  midiStatus s <> MidiStatus_Extended ->
  0 <= n < 16 -> data_byte d0 -> data_byte d1 ->
  (exists s', dispatch s [0xA0 + n; d0; d1] = Ok s' []
              /\ midiStatus s' = MidiStatus_PolyKeyPressure
              /\ midiDataRemaining s' = 0)
  /\ (exists s', dispatch s [0xD0 + n; d0] = Ok s' []
                 /\ midiStatus s' = MidiStatus_ChannelPressure
                 /\ midiDataRemaining s' = 0).
Proof.
  intros Hlen Hext Hn Hd0 Hd1. split.
  - destruct (two_byte_message s MidiStatus_PolyKeyPressure n d0 d1)
      as (s2 & s3 & Hrun & Hlast & Hst & _); try assumption; [reflexivity |].
    exists s3.
    replace (0xA0 + n)
      with (0x80 + 16 * MidiStatus_to_Z MidiStatus_PolyKeyPressure + n)
      by (cbn; lia).
    change [?b0; d0; d1] with ([b0; d0] ++ [d1]).
    rewrite (dispatch_snoc _ _ _ _ _ _ _ Hrun Hlast).
    unfold dispatchCommand. rewrite Hst. split; [reflexivity |].
    split; [reflexivity |].
    cbn [dispatch] in Hrun.
    rewrite (decode_status_of_kind s MidiStatus_PolyKeyPressure n 2) in Hrun
      by (assumption || reflexivity).
    cbn [and_then] in Hrun.
    rewrite decode_data_stored in Hrun;
      [| split; cbn; unfold maxMidiData in *; lia
       | apply high_bit_data; exact Hd0 | cbn; lia].
    cbn in Hrun. injection Hrun as <-.
    rewrite decode_data_stored in Hlast;
      [| split; cbn; rewrite ?length_insert; unfold maxMidiData in *; lia
       | apply high_bit_data; exact Hd1 | cbn; lia].
    cbn in Hlast. injection Hlast as <-. reflexivity.
  - destruct (one_byte_message s MidiStatus_ChannelPressure n d0)
      as (s1 & s2 & Hfirst & Hlast & Hst & _ & Hrem & _);
      try assumption; [reflexivity |].
    exists s2. cbn [dispatch].
    replace (0xD0 + n)
      with (0x80 + 16 * MidiStatus_to_Z MidiStatus_ChannelPressure + n)
      by (cbn; lia).
    rewrite Hfirst. cbn [and_then]. rewrite Hlast. cbn [and_then].
    unfold dispatchCommand. rewrite Hst. auto.
Qed.

Lemma X4_witness :
  (exists s', dispatch init [0xA0 + 2; 0x3C; 0x40] = Ok s' []
              /\ midiStatus s' = MidiStatus_PolyKeyPressure
              /\ midiDataRemaining s' = 0)
  /\ (exists s', dispatch init [0xD0 + 2; 0x3C] = Ok s' []
                 /\ midiStatus s' = MidiStatus_ChannelPressure
                 /\ midiDataRemaining s' = 0).
Proof.
  apply (X4_pressure_ignored init 2 0x3C 0x40);
    [reflexivity | discriminate | lia | unfold data_byte; lia ..].
Defined.

(** ** Runs of bytes *)

(** A run over [received1 ++ received2] is the run over [received1]
    followed by the run over [received2]. *)
Lemma dispatch_app (received1 received2 : list Z) (s : state) :
  dispatch s (received1 ++ received2) =
    and_then (dispatch s received1) (fun s' => dispatch s' received2).
Proof.
  revert s. induction received1 as [| b rest IH]; intros s.
  - cbn [app dispatch and_then].
    destruct (dispatch s received2); reflexivity.
  - cbn [app dispatch].
    destruct (decode s b) as [s1 calls1 | f]; [| reflexivity].
    cbn [and_then]. rewrite IH.
    destruct (dispatch s1 rest) as [s2 calls2 | f]; [| reflexivity].
    cbn [and_then].
    destruct (dispatch s2 received2) as [s3 calls3 | f]; [| reflexivity].
    rewrite app_assoc. reflexivity.
Qed.

(** Two runs that succeed, one after the other. *)
Lemma dispatch_app_Ok (received1 received2 : list Z) (s s1 s2 : state)
    (calls1 calls2 : list call) :
  dispatch s received1 = Ok s1 calls1 ->
  dispatch s1 received2 = Ok s2 calls2 ->
  dispatch s (received1 ++ received2) = Ok s2 (calls1 ++ calls2).
Proof.
  revert s calls1. induction received1 as [| b rest IH]; intros s calls1 H1 H2.
  - cbn in H1. injection H1 as <- <-. exact H2.
  - cbn [app dispatch] in H1 |- *.
    destruct (decode s b) as [s0 calls0 |]; [| discriminate].
    cbn [and_then] in H1 |- *.
    destruct (dispatch s0 rest) as [s1' calls1' |] eqn:Hrest; [| discriminate].
    injection H1 as -> <-.
    rewrite (IH s0 calls1' Hrest H2). rewrite app_assoc. reflexivity.
Qed.

(** X6: a sysex longer than the buffer is cut, not overrun: of the data
    bytes [ds] that follow [0xFn], the first [maxMidiData] (32) are stored
    and the others are dropped, so the status byte that ends the sysex
    hands the handler the length [k = min (length ds) 32] and a buffer of
    32 bytes whose first [k] bytes are the first [k] bytes of [ds]. *)
Theorem X6_sysex_truncated (s : state) (n b : Z) (ds : list Z) :
  length (midiData s) = Z.to_nat maxMidiData ->
  midiStatus s <> MidiStatus_Extended -> 0 <= n < 16 ->
  Forall data_byte ds -> high_bit b = true ->
  let k := Z.min (Z.of_nat (length ds)) maxMidiData in
  exists s' buf,
    dispatch s (0xF0 + n :: ds ++ [b]) = Ok s' [sysex k buf]
    /\ take (Z.to_nat k) buf = take (Z.to_nat k) ds
    /\ length buf = Z.to_nat maxMidiData
    /\ midiStatus s' = MidiStatus_Unknown.
Proof.
  intros Hlen Hext Hn Hall Hhigh k.
  set (kept := take (Z.to_nat maxMidiData) ds).
  set (lost := drop (Z.to_nat maxMidiData) ds).
  assert (Hsplit : ds = kept ++ lost) by (symmetry; apply take_drop).
  assert (Hkept : Forall data_byte kept) by (apply Forall_take; exact Hall).
  assert (Hlost : Forall data_byte lost) by (apply Forall_drop; exact Hall).
  assert (Hklen : Z.of_nat (length kept) = k).
  { unfold kept, k. rewrite length_take. unfold maxMidiData. lia. }
  assert (Hktake : take (Z.to_nat k) ds = kept).
  { unfold kept, k.
    destruct (Z.le_gt_cases (Z.of_nat (length ds)) maxMidiData) as [Hle | Hgt].
    - rewrite Z.min_l by exact Hle. rewrite Nat2Z.id.
      rewrite !take_ge by lia. reflexivity.
    - rewrite Z.min_r by lia. reflexivity. }
  replace (0xF0 + n) with (0x80 + 16 * MidiStatus_to_Z MidiStatus_Extended + n)
    by (cbn; lia).
  cbn [dispatch].
  rewrite (decode_status_of_kind s MidiStatus_Extended n 32)
    by (assumption || reflexivity).
  cbn [and_then].
  match goal with |- context [dispatch ?s0 (ds ++ [b])] =>
    destruct (sysex_data_stored kept s0)
      as (s1 & Hrun & Hinv1 & Hst & Hi & Hr & Htake)
  end; [split; cbn; unfold maxMidiData in *; lia | reflexivity | exact Hkept
       | cbn; unfold k, maxMidiData in *; lia |].
  cbn [midiDataIndex midiDataRemaining midiData] in Hi, Hr, Htake.
  rewrite Z.add_0_l in Hi.
  change (Z.to_nat 0) with 0%nat in Htake.
  rewrite take_0 in Htake. cbn [app] in Htake.
  assert (Hrest : dispatch s1 lost = Ok s1 []).
  { destruct (Z.le_gt_cases (Z.of_nat (length ds)) maxMidiData) as [Hle | Hgt].
    - unfold lost. rewrite drop_ge by lia. reflexivity.
    - apply dispatch_data_dropped; [| exact Hlost].
      unfold k, maxMidiData in *. lia. }
  pose proof (decode_end_of_sysex s1 b Hhigh Hst) as Hend.
  pose proof (dispatch_app_Ok _ _ _ _ _ _ _ Hrun Hrest) as Hboth.
  rewrite <- Hsplit in Hboth. cbn [app] in Hboth.
  rewrite (dispatch_snoc _ _ _ _ _ _ _ Hboth Hend). cbn [app].
  rewrite Hi, Hklen.
  do 2 eexists. split; [reflexivity |].
  split; [| split; [apply Hinv1 | reflexivity]].
  rewrite Hktake, <- Htake, Hi, Hklen. reflexivity.
Qed.

Lemma X6_witness :
  exists s' buf,
    dispatch init (0xF0 + 0 :: replicate 40 0x11 ++ [0xF7])
      = Ok s' [sysex (Z.min (Z.of_nat (length (replicate 40 0x11))) maxMidiData)
                 buf]
    /\ take (Z.to_nat (Z.min (Z.of_nat (length (replicate 40 0x11))) maxMidiData))
         buf
       = take (Z.to_nat (Z.min (Z.of_nat (length (replicate 40 0x11))) maxMidiData))
           (replicate 40 0x11)
    /\ length buf = Z.to_nat maxMidiData
    /\ midiStatus s' = MidiStatus_Unknown.
Proof.
  apply (X6_sysex_truncated init 0 0xF7 (replicate 40 0x11));
    [reflexivity | discriminate | lia
    | apply Forall_replicate; unfold data_byte; lia | reflexivity].
Defined.

(** ** What the decoder never does *)

(** [dispatchCommand] calls one handler at most. *)
Lemma dispatchCommand_at_most_one (s : state) :
  (length (dispatchCommand s) <= 1)%nat.
Proof.
  unfold dispatchCommand.
  destruct (midiStatus s); try destruct (data_at s 1 =? 0); cbn; lia.
Qed.

(** Data bytes in the Unknown state are stored or dropped in silence, and
    the state stays Unknown. *)
Lemma unknown_data_silent (ds : list Z) :
  forall s, inv s -> midiStatus s = MidiStatus_Unknown -> Forall data_byte ds ->
  exists s', dispatch s ds = Ok s' []
             /\ inv s' /\ midiStatus s' = MidiStatus_Unknown.
Proof.
  induction ds as [| d ds IH]; intros s Hinv Hunk Hall.
  - exists s. auto.
  - inversion Hall as [| ? ? Hd Hds]; subst.
    pose proof (high_bit_data d Hd) as Hhigh.
    assert (Hstep : exists s1, decode s d = Ok s1 []
                               /\ inv s1 /\ midiStatus s1 = MidiStatus_Unknown).
    { destruct (Z.lt_ge_cases 0 (midiDataRemaining s)) as [Hpos | Hnone].
      - rewrite decode_data_stored by assumption.
        eexists. split; [| split].
        + unfold dispatchCommand. cbn [midiStatus].
          replace (match midiStatus s with
                   | MidiStatus_NoteOn => _ | _ => _ end) with (@nil call)
            by (rewrite Hunk; reflexivity).
          destruct (midiDataRemaining s =? 1); reflexivity.
        + destruct Hinv as [Hl Hi Hr Hf].
          split; cbn; [rewrite length_insert; exact Hl | lia ..].
        + exact Hunk.
      - rewrite decode_data_dropped by assumption. exists s. auto. }
    destruct Hstep as (s1 & Hstep & Hinv1 & Hunk1).
    destruct (IH s1 Hinv1 Hunk1 Hds) as (s' & Hrun & Hinv' & Hunk').
    exists s'. cbn [dispatch]. rewrite Hstep. cbn [and_then]. rewrite Hrun.
    auto.
Qed.

(** X7: the status byte that ends a sysex is used up by doing so.  Fed
    during a sysex, a status byte and the data bytes after it give the
    sysex call and no other: when that byte was the status byte of the
    next message rather than an EOX, the message is lost. *)
Theorem X7_message_after_sysex_lost (s : state) (b : Z) (ds : list Z) :
  inv s -> midiStatus s = MidiStatus_Extended ->
  high_bit b = true -> Forall data_byte ds ->
  exists s',
    dispatch s (b :: ds) = Ok s' [sysex (midiDataIndex s) (midiData s)]
    /\ midiStatus s' = MidiStatus_Unknown.
Proof.
  intros Hinv Hext Hhigh Hds.
  cbn [dispatch]. rewrite (decode_end_of_sysex s b Hhigh Hext).
  cbn [and_then].
  match goal with |- context [dispatch ?s0 ds] =>
    destruct (unknown_data_silent ds s0) as (s' & Hrun & _ & Hunk)
  end; [destruct Hinv; split; assumption | reflexivity | exact Hds |].
  exists s'. rewrite Hrun. auto.
Qed.

Lemma X7_witness :
  exists s',
    dispatch sysex_in_progress (0x90 :: [0x3C; 0x40])
      = Ok s' [sysex (midiDataIndex sysex_in_progress)
                 (midiData sysex_in_progress)]
    /\ midiStatus s' = MidiStatus_Unknown.
Proof.
  apply (X7_message_after_sysex_lost sysex_in_progress 0x90 [0x3C; 0x40]);
    [split; cbn; unfold maxMidiData; lia | reflexivity | reflexivity
    | repeat constructor; unfold data_byte; lia].
Defined.

(** X8: the status becomes Unknown in one way only.  When a step of
    [decode] leaves the status Unknown and it was not Unknown before, the
    status was Extended, the byte had its most significant bit set and the
    step called [sysex]: no message of another kind, complete or
    abandoned, resets the status. *)
Theorem X8_unknown_only_after_sysex (s s' : state) (b : Z) (calls : list call) :
  uint8 b -> decode s b = Ok s' calls ->
  midiStatus s <> MidiStatus_Unknown -> midiStatus s' = MidiStatus_Unknown ->
  midiStatus s = MidiStatus_Extended
  /\ high_bit b = true
  /\ calls = [sysex (midiDataIndex s) (midiData s)].
Proof.
  intros Hb Hstep Hwas Hnow.
  destruct (high_bit b) eqn:Hhigh.
  - destruct (decide (midiStatus s = MidiStatus_Extended)) as [Hext | Hext].
    + rewrite decode_end_of_sysex in Hstep by assumption.
      injection Hstep as <- <-. auto.
    + destruct (decode_status s b Hb Hhigh Hext)
        as (kind & len & Hk & Hlen & Heq).
      rewrite Heq in Hstep. injection Hstep as <- <-.
      cbn in Hnow. subst kind. discriminate.
  - exfalso. unfold decode, decode_with in Hstep. rewrite Hhigh in Hstep.
    destruct (0 <? midiDataRemaining s).
    + destruct (store_at (midiData s) (midiDataIndex s) b); [| discriminate].
      injection Hstep as <- <-. cbn in Hnow. contradiction.
    + injection Hstep as <- <-. contradiction.
Qed.

Lemma X8_witness :
  midiStatus sysex_in_progress = MidiStatus_Extended
  /\ high_bit 0xF7 = true
  /\ [sysex 2 ([0x01; 0x02] ++ replicate 30 0)]
     = [sysex (midiDataIndex sysex_in_progress) (midiData sysex_in_progress)].
Proof.
  apply (X8_unknown_only_after_sysex sysex_in_progress
           {| midiStatus := MidiStatus_Unknown;
              midiChannel := 0;
              midiDataRemaining := 30;
              midiDataIndex := 2;
              midiData := [0x01; 0x02] ++ replicate 30 0 |}
           0xF7 [sysex 2 ([0x01; 0x02] ++ replicate 30 0)]);
    [unfold uint8; lia | reflexivity | discriminate | reflexivity].
Defined.

(** X9: data bytes alone complete one message at most.  From a state
    with the invariant, a run of data bytes of any length calls one
    handler at most, and leaves the status and the channel as they
    were. *)
Theorem X9_data_run_one_call (ds : list Z) (s : state) :
  inv s -> Forall data_byte ds ->
  exists s' calls,
    dispatch s ds = Ok s' calls
    /\ (length calls <= 1)%nat
    /\ midiStatus s' = midiStatus s
    /\ midiChannel s' = midiChannel s.
Proof.
  revert s. induction ds as [| d ds IH]; intros s Hinv Hall.
  - exists s, []. cbn. auto.
  - inversion Hall as [| ? ? Hd Hds]; subst.
    pose proof (high_bit_data d Hd) as Hhigh.
    cbn [dispatch].
    destruct (Z.lt_ge_cases 0 (midiDataRemaining s)) as [Hpos | Hnone].
    + rewrite decode_data_stored by assumption. cbn [and_then].
      set (s1 := {| midiStatus := midiStatus s;
                    midiChannel := midiChannel s;
                    midiDataRemaining := midiDataRemaining s - 1;
                    midiDataIndex := midiDataIndex s + 1;
                    midiData := <[Z.to_nat (midiDataIndex s) := d]> (midiData s) |}).
      destruct (Z.eqb_spec (midiDataRemaining s) 1) as [Hone | Hmore].
      * rewrite dispatch_data_dropped by (cbn; lia || exact Hds).
        do 2 eexists. split; [reflexivity |].
        rewrite app_nil_r. split; [apply dispatchCommand_at_most_one | auto].
      * assert (Hinv1 : inv s1).
        { destruct Hinv as [Hl Hi Hr Hf].
          split; cbn; [rewrite length_insert; exact Hl | lia ..]. }
        destruct (IH s1 Hinv1 Hds) as (s' & calls & Hrun & Hlen & Hst & Hch).
        exists s', calls. rewrite Hrun. auto.
    + rewrite decode_data_dropped by assumption. cbn [and_then].
      destruct (IH s Hinv Hds) as (s' & calls & Hrun & Hlen & Hst & Hch).
      exists s', calls. rewrite Hrun. auto.
Qed.

Lemma X9_witness :
  exists s' calls,
    dispatch note_on_pending [0x40; 0x41; 0x42; 0x43] = Ok s' calls
    /\ (length calls <= 1)%nat
    /\ midiStatus s' = midiStatus note_on_pending
    /\ midiChannel s' = midiChannel note_on_pending.
Proof.
  apply (X9_data_run_one_call [0x40; 0x41; 0x42; 0x43] note_on_pending);
    [split; cbn; unfold maxMidiData; lia
    | repeat constructor; unfold data_byte; lia].
Defined.

(** ** The arguments the handlers receive *)

Lemma data_at_data_byte (s : state) (i : nat) :
  Forall data_byte (midiData s) -> data_byte (data_at s i).
Proof.
  intros Hall. unfold data_at.
  destruct (midiData s !! i) as [x |] eqn:Hx; cbn.
  - exact (Forall_lookup_1 _ _ _ _ Hall Hx).
  - unfold data_byte. lia.
Qed.

Lemma inv_data_init : inv_data init.
Proof.
  split; [exact inv_init | | intros H; contradiction H; reflexivity].
  apply Forall_replicate. unfold data_byte. lia.
Qed.

Lemma dispatchCommand_in_range (s : state) :
  inv_data s -> Forall call_in_range (dispatchCommand s).
Proof.
  intros [Hinv Hbytes Hchan].
  pose proof (data_at_data_byte s 0 Hbytes) as H0.
  pose proof (data_at_data_byte s 1 Hbytes) as H1.
  unfold dispatchCommand.
  destruct (midiStatus s) eqn:Hst; try (constructor; fail);
    assert (Hc : 0 <= midiChannel s < 16) by (apply Hchan; discriminate).
  - repeat constructor; cbn; unfold data_byte in *; lia.
  - destruct (Z.eqb_spec (data_at s 1) 0) as [Hz | Hnz];
      repeat constructor; cbn; unfold data_byte in *; lia.
  - repeat constructor; cbn; unfold data_byte in *; lia.
  - repeat constructor; cbn; unfold data_byte in *; lia.
  - destruct (pitch_bend_value _ _ H0 H1) as [Hv Hjoin].
    cbv zeta. rewrite Hv, Hjoin.
    repeat constructor; cbn; unfold data_byte in *; lia.
Qed.

(** One step keeps the invariant on the content and calls handlers with
    arguments in range only. *)
Lemma decode_in_range (s : state) (b : Z) :
  inv_data s -> uint8 b ->
  exists s' calls,
    decode s b = Ok s' calls /\ inv_data s' /\ Forall call_in_range calls.
Proof.
  intros Hdata Hb. pose proof Hdata as [Hinv Hbytes Hchan].
  destruct (decode_inv s b Hinv Hb) as (s' & calls & Hstep & Hinv').
  exists s', calls. split; [exact Hstep |].
  destruct (high_bit b) eqn:Hhigh.
  - destruct (decide (midiStatus s = MidiStatus_Extended)) as [Hext | Hext].
    + rewrite decode_end_of_sysex in Hstep by assumption.
      injection Hstep as <- <-. split.
      * split; [exact Hinv' | exact Hbytes | intros H; contradiction H; reflexivity].
      * repeat constructor; cbn; try apply Hinv; try exact Hbytes.
        pose proof (inv_remaining s Hinv). pose proof (inv_fits s Hinv). lia.
    + destruct (decode_status s b Hb Hhigh Hext) as (kind & len & _ & _ & Heq).
      rewrite Heq in Hstep. injection Hstep as <- <-.
      split; [| constructor].
      split; [exact Hinv' | exact Hbytes |]. intros _. cbn.
      destruct (nibbles b) as [_ ->]; [unfold uint8 in Hb; lia |].
      apply Z.mod_pos_bound. lia.
  - assert (Hd : data_byte b).
    { rewrite high_bit_uint8 in Hhigh by exact Hb.
      unfold data_byte, uint8 in *. lia. }
    destruct (Z.lt_ge_cases 0 (midiDataRemaining s)) as [Hpos | Hnone].
    + rewrite decode_data_stored in Hstep by assumption.
      injection Hstep as <- <-.
      match goal with |- inv_data ?s1 /\ _ => assert (Hdata1 : inv_data s1) end.
      { split; [exact Hinv' | cbn; apply Forall_insert; assumption
               | exact Hchan]. }
      split; [exact Hdata1 |].
      destruct (midiDataRemaining s =? 1); [| constructor].
      apply dispatchCommand_in_range. exact Hdata1.
    + rewrite decode_data_dropped in Hstep by assumption.
      injection Hstep as <- <-. split; [exact Hdata | constructor].
Qed.

(** Every state a run reaches from the initial state has the invariant
    and a buffer of bytes. *)
Lemma dispatch_inv_data (received : list Z) :
  forall s, inv_data s -> Forall uint8 received ->
  exists s' calls, dispatch s received = Ok s' calls /\ inv_data s'.
Proof.
  induction received as [| b rest IH]; intros s Hdata Hall.
  - exists s, []. split; [reflexivity | exact Hdata].
  - inversion Hall as [| ? ? Hb Hrest]; subst.
    destruct (decode_in_range s b Hdata Hb) as (s1 & calls1 & Hstep & Hdata1 & _).
    destruct (IH s1 Hdata1 Hrest) as (s2 & calls2 & Hrun & Hdata2).
    exists s2, (calls1 ++ calls2). cbn [dispatch].
    rewrite Hstep. cbn [and_then]. rewrite Hrun. auto.
Qed.

Lemma reached_buffer_of_bytes (received : list Z) :
  Forall uint8 received ->
  exists s calls,
    dispatch init received = Ok s calls
    /\ inv s /\ Forall uint8 (midiData s).
Proof.
  intros Hall.
  destruct (dispatch_inv_data received init inv_data_init Hall)
    as (s & calls & Hrun & [Hinv Hbytes _]).
  exists s, calls. split; [exact Hrun |]. split; [exact Hinv |].
  eapply Forall_impl; [exact Hbytes |].
  intros x Hx. unfold data_byte, uint8 in *. lia.
Qed.

(** X10: whatever bytes arrive, the handlers are called with arguments in
    range.  From the initial state, a run over any bytes ends without a
    fault, and each of its calls has a channel in 0..15, data bytes in
    0..127, for [noteOn] a velocity in 1..127, for [pitchBend] a value in
    -8192..8191, and for [sysex] a length of at most 32 with a buffer of
    32 data bytes. *)
Theorem X10_calls_in_range (received : list Z) :
  Forall uint8 received ->
  exists s calls,
    dispatch init received = Ok s calls /\ Forall call_in_range calls.
Proof.
  intros Hall.
  enough (Hgen : forall s, inv_data s ->
            exists s' calls, dispatch s received = Ok s' calls
                             /\ inv_data s' /\ Forall call_in_range calls).
  { destruct (Hgen init inv_data_init) as (s & calls & Hrun & _ & Hrange).
    exists s, calls. auto. }
  induction received as [| b rest IH]; intros s Hdata.
  - exists s, []. split; [reflexivity | split; [exact Hdata | constructor]].
  - inversion Hall as [| ? ? Hb Hrest]; subst.
    destruct (decode_in_range s b Hdata Hb) as (s1 & calls1 & Hstep & Hdata1 & Hr1).
    destruct (IH Hrest s1 Hdata1) as (s2 & calls2 & Hrun & Hdata2 & Hr2).
    exists s2, (calls1 ++ calls2). cbn [dispatch].
    rewrite Hstep. cbn [and_then]. rewrite Hrun.
    split; [reflexivity |]. split; [exact Hdata2 |].
    apply Forall_app. auto.
Qed.

Lemma X10_witness :
  exists s calls,
    dispatch init [0x3C; 0x90; 0x3C; 0xE1; 0x00; 0x40; 0xF0; 0x01; 0xFF]
      = Ok s calls
    /\ Forall call_in_range calls.
Proof.
  apply (X10_calls_in_range
           [0x3C; 0x90; 0x3C; 0xE1; 0x00; 0x40; 0xF0; 0x01; 0xFF]).
  repeat constructor; unfold uint8; lia.
Defined.

(** ** The cost of a call *)

Lemma decode_cost (s : state) (b : Z) :
  inv s -> uint8 b ->
  exists s' calls,
    decode s b = Ok s' calls
    /\ inv s'
    /\ 2 * Z.of_nat (length calls) + armed s' <= armed s + 1.
Proof.
  intros Hinv Hb.
  destruct (decode_inv s b Hinv Hb) as (s' & calls & Hstep & Hinv').
  exists s', calls. split; [exact Hstep |]. split; [exact Hinv' |].
  assert (Harmed : forall t, 0 <= armed t <= 1).
  { intros t. unfold armed.
    destruct (midiStatus t); try destruct (0 <? midiDataRemaining t); lia. }
  destruct (high_bit b) eqn:Hhigh.
  - destruct (decide (midiStatus s = MidiStatus_Extended)) as [Hext | Hext].
    + rewrite decode_end_of_sysex in Hstep by assumption.
      injection Hstep as <- <-. unfold armed. cbn. rewrite Hext. lia.
    + destruct (decode_status s b Hb Hhigh Hext) as (kind & len & _ & _ & Heq).
      rewrite Heq in Hstep. injection Hstep as <- <-.
      cbn [length]. pose proof (Harmed s).
      match goal with |- context [armed ?t] => pose proof (Harmed t) end. lia.
  - assert (Hd : data_byte b).
    { rewrite high_bit_uint8 in Hhigh by exact Hb.
      unfold data_byte, uint8 in *. lia. }
    destruct (Z.lt_ge_cases 0 (midiDataRemaining s)) as [Hpos | Hnone].
    + rewrite decode_data_stored in Hstep by assumption.
      injection Hstep as <- <-.
      destruct (Z.eqb_spec (midiDataRemaining s) 1) as [Hone | Hmore].
      * pose proof (dispatchCommand_at_most_one
                      {| midiStatus := midiStatus s;
                         midiChannel := midiChannel s;
                         midiDataRemaining := midiDataRemaining s - 1;
                         midiDataIndex := midiDataIndex s + 1;
                         midiData := <[Z.to_nat (midiDataIndex s) := b]> (midiData s) |})
          as Hlen.
        revert Hlen. unfold dispatchCommand, armed. cbn.
        rewrite Hone. cbn.
        destruct (midiStatus s); try destruct (data_at _ 1 =? 0); cbn;
          intros _; change (1 - 1) with 0; cbn; lia.
      * unfold armed. cbn.
        destruct (midiStatus s); try lia;
          destruct (Z.ltb_spec 0 (midiDataRemaining s - 1));
          destruct (Z.ltb_spec 0 (midiDataRemaining s)); lia.
    + rewrite decode_data_dropped in Hstep by assumption.
      injection Hstep as <- <-. cbn. lia.
Qed.

(** X11: a handler call takes two bytes at least.  From the initial
    state, a run over any bytes makes at most half as many calls as it
    has bytes: there is no byte sequence on which single bytes keep
    calling handlers. *)
Theorem X11_two_bytes_per_call (received : list Z) :
  Forall uint8 received ->
  exists s calls,
    dispatch init received = Ok s calls
    /\ 2 * Z.of_nat (length calls) <= Z.of_nat (length received).
Proof.
  intros Hall.
  enough (Hgen : forall s, inv s ->
            exists s' calls,
              dispatch s received = Ok s' calls
              /\ 2 * Z.of_nat (length calls) + armed s'
                 <= armed s + Z.of_nat (length received)).
  { destruct (Hgen init inv_init) as (s & calls & Hrun & Hcost).
    exists s, calls. split; [exact Hrun |].
    assert (0 <= armed s).
    { unfold armed.
      destruct (midiStatus s); try destruct (0 <? midiDataRemaining s); lia. }
    change (armed init) with 0 in Hcost. lia. }
  induction received as [| b rest IH]; intros s Hinv.
  - exists s, []. cbn. split; [reflexivity | lia].
  - inversion Hall as [| ? ? Hb Hrest]; subst.
    destruct (decode_cost s b Hinv Hb) as (s1 & calls1 & Hstep & Hinv1 & Hc1).
    destruct (IH Hrest s1 Hinv1) as (s2 & calls2 & Hrun & Hc2).
    exists s2, (calls1 ++ calls2). cbn [dispatch].
    rewrite Hstep. cbn [and_then]. rewrite Hrun.
    split; [reflexivity |].
    rewrite length_app. cbn [length]. lia.
Qed.

Lemma X11_witness :
  exists s calls,
    dispatch init [0xC0; 0x05; 0xF0; 0xF7; 0x90; 0x3C; 0x40] = Ok s calls
    /\ 2 * Z.of_nat (length calls)
       <= Z.of_nat (length [0xC0; 0x05; 0xF0; 0xF7; 0x90; 0x3C; 0x40]).
Proof.
  apply (X11_two_bytes_per_call [0xC0; 0x05; 0xF0; 0xF7; 0x90; 0x3C; 0x40]).
  repeat constructor; unfold uint8; lia.
Defined.

(** ** [Midi::begin]: the registers of the USART *)

Section Begin.

Variables (F_CPU : Z) (masks : usart_masks).

(** The divisor [begin] computes, before it is split over two registers. *)
Lemma begin_registers (baud : Z) (r : usart) :
  0 <= F_CPU < 2 ^ 31 -> 0 < baud ->
  exists r',
    begin F_CPU masks baud r = Some r'
    /\ UBRR0H r' = ((F_CPU / 16 / baud - 1) mod 65536) / 256
    /\ UBRR0L r' = ((F_CPU / 16 / baud - 1) mod 65536) mod 256.
Proof.
  intros Hclock Hbaud. unfold begin.
  destruct (Z.eqb_spec baud 0) as [| _]; [lia |].
  eexists. split; [reflexivity |].
  cbn [UBRR0H UBRR0L].
  assert (Hq : to_uint32 (F_CPU / 16) = F_CPU / 16).
  { unfold to_uint32. apply Z.mod_small. split.
    - apply Z.div_pos; lia.
    - apply Z.div_lt_upper_bound; lia. }
  rewrite Hq.
  assert (Hubrr : to_uint16 (to_uint32 (F_CPU / 16 / baud - 1))
                  = (F_CPU / 16 / baud - 1) mod 65536).
  { unfold to_uint16, to_uint32. apply Z.mod_mod_divide.
    exists 65536. reflexivity. }
  rewrite Hubrr.
  set (ubrr := (F_CPU / 16 / baud - 1) mod 65536).
  assert (Hrange : 0 <= ubrr < 65536) by (apply Z.mod_pos_bound; lia).
  split.
  - rewrite Z.shiftr_div_pow2 by lia. change (2 ^ 8) with 256.
    apply to_uint8_small. unfold uint8. split.
    + apply Z.div_pos; lia.
    + apply Z.div_lt_upper_bound; lia.
  - change 0xFF with (Z.ones 8). rewrite Z.land_ones by lia.
    change (2 ^ 8) with 256. apply to_uint8_small. unfold uint8.
    apply Z.mod_pos_bound. lia.
Qed.

(** X12: [begin] stores the divisor of the baud rate, split over the two
    registers.  For a clock below 2^31 and a baud rate that is not 0, the
    registers UBRR0H and UBRR0L hold a byte each and together the number
    [F_CPU / 16 / baud - 1] modulo 2^16; this is [F_CPU / 16 / baud - 1]
    itself when the baud rate is at most [F_CPU / 16] and the quotient is
    at most 65536. *)
Theorem X12_begin_divisor (baud : Z) (r : usart) :
  0 <= F_CPU < 2 ^ 31 -> 0 < baud ->
  exists r',
    begin F_CPU masks baud r = Some r'
    /\ uint8 (UBRR0H r') /\ uint8 (UBRR0L r')
    /\ 256 * UBRR0H r' + UBRR0L r' = (F_CPU / 16 / baud - 1) mod 65536
    /\ (baud <= F_CPU / 16 -> F_CPU / 16 / baud <= 65536 ->
        256 * UBRR0H r' + UBRR0L r' = F_CPU / 16 / baud - 1).
Proof.
  intros Hclock Hbaud.
  destruct (begin_registers baud r Hclock Hbaud) as (r' & Hbegin & HH & HL).
  exists r'. split; [exact Hbegin |].
  set (ubrr := (F_CPU / 16 / baud - 1) mod 65536) in *.
  assert (Hrange : 0 <= ubrr < 65536) by (apply Z.mod_pos_bound; lia).
  assert (Hsum : 256 * UBRR0H r' + UBRR0L r' = ubrr).
  { rewrite HH, HL. symmetry. apply Z.div_mod. lia. }
  split; [| split; [| split; [exact Hsum |]]].
  - rewrite HH. unfold uint8. split.
    + apply Z.div_pos; lia.
    + apply Z.div_lt_upper_bound; lia.
  - rewrite HL. unfold uint8. apply Z.mod_pos_bound. lia.
  - intros Hlow Hfits. rewrite Hsum. unfold ubrr.
    apply Z.mod_small.
    assert (1 <= F_CPU / 16 / baud) by (apply Z.div_le_lower_bound; lia).
    lia.
Qed.

(** X13: a baud rate above [F_CPU / 16] is not refused: the quotient
    is 0, the subtraction wraps around, and both registers are set
    to 0xFF. *)
Theorem X13_begin_baud_too_high (baud : Z) (r : usart) :
  0 <= F_CPU < 2 ^ 31 -> F_CPU / 16 < baud ->
  exists r',
    begin F_CPU masks baud r = Some r'
    /\ UBRR0H r' = 0xFF /\ UBRR0L r' = 0xFF.
Proof.
  intros Hclock Hhigh.
  assert (0 <= F_CPU / 16) by (apply Z.div_pos; lia).
  destruct (begin_registers baud r Hclock) as (r' & Hbegin & HH & HL); [lia |].
  exists r'. split; [exact Hbegin |].
  rewrite (Z.div_small (F_CPU / 16) baud) in HH, HL by lia.
  split; [rewrite HH | rewrite HL]; reflexivity.
Qed.

(** X14: [begin] only sets bits in UCSR0B.  For a baud rate that is not
    0, each of the 8 bits of UCSR0B is set afterwards exactly when it was
    set before or is a bit of one of the two masks; UCSR0C is overwritten
    by the two masks of the frame format. *)
Theorem X14_begin_control_bits (baud : Z) (r : usart) :
  baud <> 0 ->
  exists r',
    begin F_CPU masks baud r = Some r'
    /\ (forall i, 0 <= i < 8 ->
          Z.testbit (UCSR0B r') i
          = Z.testbit (UCSR0B r) i
            || Z.testbit (BV_RXEN0 masks) i || Z.testbit (BV_RXCIE0 masks) i)
    /\ (forall i, 0 <= i < 8 ->
          Z.testbit (UCSR0C r') i
          = Z.testbit (BV_UCSZ01 masks) i || Z.testbit (BV_UCSZ00 masks) i).
Proof.
  intros Hbaud. unfold begin.
  destruct (Z.eqb_spec baud 0) as [| _]; [contradiction |].
  eexists. split; [reflexivity |].
  cbn [UCSR0B UCSR0C]. unfold to_uint8. change 256 with (2 ^ 8).
  split; intros i Hi; rewrite Z.testbit_mod_pow2 by lia;
    destruct (Z.ltb_spec i 8); try lia;
    rewrite !Z.lor_spec, andb_true_l; [apply orb_assoc | reflexivity].
Qed.

(** X15: the last call of [begin] decides.  After a call of [begin], a
    second call leaves the registers as if it had been the only one; so
    calling [begin] twice with the same baud rate is the same as calling
    it once. *)
Theorem X15_begin_last_call_wins (baud1 baud2 : Z) (r r1 : usart) :
  begin F_CPU masks baud1 r = Some r1 ->
  begin F_CPU masks baud2 r1 = begin F_CPU masks baud2 r.
Proof.
  intros Hfirst. unfold begin in *.
  destruct (baud1 =? 0); [discriminate |].
  injection Hfirst as <-.
  destruct (baud2 =? 0); [reflexivity |].
  cbn [UCSR0B]. do 2 f_equal.
  unfold to_uint8. change 256 with (2 ^ 8).
  apply Z.bits_inj'. intros i Hi.
  rewrite !Z.testbit_mod_pow2 by lia.
  destruct (Z.ltb_spec i 8); [| reflexivity].
  rewrite !andb_true_l, !Z.lor_spec, Z.testbit_mod_pow2 by lia.
  destruct (Z.ltb_spec i 8); [| lia].
  rewrite andb_true_l, !Z.lor_spec.
  destruct (Z.testbit (UCSR0B r) i), (Z.testbit (BV_RXEN0 masks) i),
    (Z.testbit (BV_RXCIE0 masks) i); reflexivity.
Qed.

End Begin.

Lemma X12_witness :
  exists r',
    begin uno_clock atmega328p_masks 31250 usart_reset = Some r'
    /\ uint8 (UBRR0H r') /\ uint8 (UBRR0L r')
    /\ 256 * UBRR0H r' + UBRR0L r' = (uno_clock / 16 / 31250 - 1) mod 65536
    /\ (31250 <= uno_clock / 16 -> uno_clock / 16 / 31250 <= 65536 ->
        256 * UBRR0H r' + UBRR0L r' = uno_clock / 16 / 31250 - 1).
Proof.
  apply (X12_begin_divisor uno_clock atmega328p_masks 31250 usart_reset);
    unfold uno_clock; lia.
Defined.

Lemma X13_witness :
  exists r',
    begin uno_clock atmega328p_masks 2000000 usart_reset = Some r'
    /\ UBRR0H r' = 0xFF /\ UBRR0L r' = 0xFF.
Proof.
  apply (X13_begin_baud_too_high uno_clock atmega328p_masks 2000000 usart_reset);
    [unfold uno_clock; lia | vm_compute; reflexivity].
Defined.

Lemma X14_witness :
  exists r',
    begin uno_clock atmega328p_masks 31250 usart_reset = Some r'
    /\ (forall i, 0 <= i < 8 ->
          Z.testbit (UCSR0B r') i
          = Z.testbit (UCSR0B usart_reset) i
            || Z.testbit (BV_RXEN0 atmega328p_masks) i
            || Z.testbit (BV_RXCIE0 atmega328p_masks) i)
    /\ (forall i, 0 <= i < 8 ->
          Z.testbit (UCSR0C r') i
          = Z.testbit (BV_UCSZ01 atmega328p_masks) i
            || Z.testbit (BV_UCSZ00 atmega328p_masks) i).
Proof.
  apply (X14_begin_control_bits uno_clock atmega328p_masks 31250 usart_reset).
  lia.
Defined.

Lemma X15_witness :
  begin uno_clock atmega328p_masks 31250
    {| UBRR0H := 0; UBRR0L := 25; UCSR0C := 6; UCSR0B := 144 |}
  = begin uno_clock atmega328p_masks 31250 usart_reset.
Proof.
  apply (X15_begin_last_call_wins uno_clock atmega328p_masks 38400 31250
           usart_reset).
  reflexivity.
Defined.
